(** * file-replicator: a shallow embedding of the replication engine

    The development follows the three source modules:
    - [tar_adapter.py]: the tar flavours and their detection,
    - [lib.py]: the session ([make_file_replicator] and its [copy_file]
      closure), bulk replication, the watchdog event handlers and the
      polling loop of [replicate_files_on_change],
    - [cli.py]: the [main] entry point.

    Python [str] values are modelled by [string] (the UTF-8 encoding of the
    text), [bytes] by [string] as well, [list]s by [list], exceptions by the
    [exn] type and a result type, and the outside world (executables, the
    file system, the clock, the notification thread) by oracles that are
    section variables. *)

From Stdlib Require Import Bool List String Ascii ZArith Lia.
From Stdlib Require Import Floats.PrimFloat.
Import ListNotations.
Open Scope list_scope.
Open Scope string_scope.

Set Implicit Arguments.

(** ** Python strings *)

Module PyStr.

(** [sub in s] on [str] (and on [bytes]). *)
Fixpoint str_in (sub s : string) : bool :=
  String.prefix sub s ||
  match s with
  | EmptyString => false
  | String _ s' => str_in sub s'
  end.

(** [s.startswith(p)] and [s.endswith(p)]. *)
Definition startswith (s p : string) : bool := String.prefix p s.

Fixpoint endswith (s p : string) : bool :=
  String.eqb s p ||
  match s with
  | EmptyString => false
  | String _ s' => endswith s' p
  end.

(** [sep.join(l)]. *)
Definition join (sep : string) (l : list string) : string :=
  String.concat sep l.

(** The line feed character. *)
Definition nl : string := String (ascii_of_nat 10) EmptyString.

(** [str(b).lower()] for a [bool]. *)
Definition str_bool_lower (b : bool) : string :=
  if b then "true" else "false".

(** What [sub in s] means: [s] has an occurrence of [sub]. *)
Definition Occurs (sub s : string) : Prop :=
  exists pre post, s = pre ++ sub ++ post.

End PyStr.
Import PyStr.

(** ** Exceptions and results *)

Inductive exn : Type :=
| FileNotFoundError
| OSError
| CalledProcessError (returncode : Z) (cmd : list string)
| UnicodeDecodeError
| RuntimeError (msg : string)
| AttributeError (msg : string)
| ValueError (msg : string)
| UsageError (msg : string)
| NoChangeTimeoutError (elapsed : float)
| KeyboardInterrupt.

Inductive result (A : Type) : Type :=
| Ok (a : A)
| Raise (e : exn).
Arguments Ok {A} a.
Arguments Raise {A} e.

Definition raises {A} (r : result A) : Prop := exists e, r = Raise e.

(** ** subprocess *)

Module subprocess.

(** What [subprocess.run] hands back once the child has exited.  The
    fields [stdout] and [stderr] hold what was captured through a pipe. *)
Record CompletedProcess : Type := {
  returncode : Z;
  stdout : string;
  stderr : string
}.

(** What the operating system does with a request to run a command: the
    executable is missing, the launch fails otherwise (for instance the
    file is not executable), or the child runs and exits.  [Undecodable]
    is a child that ran and exited but whose captured output is not text
    in the encoding of the locale, which matters to a run in text mode
    only. *)
Inductive outcome : Type :=
| NoSuchFile
| LaunchFailed
| Exited (cp : CompletedProcess)
| Undecodable (cp : CompletedProcess).

(** The test [check=True] adds once the child has exited. *)
Definition checked (args : list string) (check : bool) (cp : CompletedProcess)
  : result CompletedProcess :=
  if check && negb (returncode cp =? 0)%Z
  then Raise (CalledProcessError (returncode cp) args)
  else Ok cp.

(** [subprocess.run(args, check=..., universal_newlines=...)].  In text
    mode the captured output is decoded while it is read, before the exit
    status is looked at. *)
Definition run (args : list string) (check text : bool) (o : outcome)
  : result CompletedProcess :=
  match o with
  | NoSuchFile => Raise FileNotFoundError
  | LaunchFailed => Raise OSError
  | Exited cp => checked args check cp
  | Undecodable cp =>
      if text then Raise UnicodeDecodeError else checked args check cp
  end.

End subprocess.

(** ** tar_adapter.py *)

Module tar_adapter.

(** The three concrete adapter classes; only [GnuTarAdapter] derives from
    [PrefixedTarAdapter] and carries a prefix. *)
Inductive TarAdapter : Type :=
| GnuTarAdapter (prefix : string)
| BsdTarAdapter
| BusyBoxTarAdapter.

Definition cmd (self : TarAdapter) : string :=
  match self with
  | GnuTarAdapter prefix => prefix ++ "tar"
  | BsdTarAdapter | BusyBoxTarAdapter => "tar"
  end.

Definition receiver_options (self : TarAdapter) : list string :=
  match self with
  | GnuTarAdapter _ => ["--no-same-owner"; "--extract"; "--verbose"]
  | BsdTarAdapter => ["-o"; "-x"; "-v"]
  | BusyBoxTarAdapter => ["x"; "-v"]
  end.

Definition sender_options (self : TarAdapter) (src_file : string)
  : list string :=
  match self with
  | GnuTarAdapter _ =>
      ["--create"; src_file; "--to-stdout"; "--ignore-failed-read"]
  | BsdTarAdapter => ["-c"; "-f"; "-"; src_file]
  | BusyBoxTarAdapter => ["c"; "-f"; "-"; src_file]
  end.

Definition receiver_cmd (self : TarAdapter) : list string :=
  ([cmd self] ++ receiver_options self)%list.

Definition receiver_cmd_str (self : TarAdapter) : string :=
  join " " (receiver_cmd self).

Definition sender_cmd (self : TarAdapter) (src_file : string)
  : list string :=
  ([cmd self] ++ sender_options self src_file)%list.

Definition sender_cmd_str (self : TarAdapter) (src_file : string) : string :=
  join " " (sender_cmd self src_file).

Definition version_option (self : TarAdapter) : string := "--version".

Definition match_flavor_output (self : TarAdapter) (output : string) : bool :=
  match self with
  | GnuTarAdapter _ => str_in "GNU tar" output
  | BsdTarAdapter => str_in "bsdtar" output
  | BusyBoxTarAdapter => str_in "busybox" output
  end.

(** [isinstance(x, GnuTarAdapter)] for a value that is an adapter or
    [None]. *)
Definition isinstance_GnuTarAdapter (x : option TarAdapter) : bool :=
  match x with
  | Some (GnuTarAdapter _) => true
  | _ => false
  end.

(** *** Detection *)

(** The default [acceptable] lists of the two detectors. *)
Definition default_local : list TarAdapter :=
  [GnuTarAdapter ""; GnuTarAdapter "g"; BsdTarAdapter; BusyBoxTarAdapter].

Definition default_remote : list TarAdapter :=
  [GnuTarAdapter ""; GnuTarAdapter "g"].

Definition or_default (acceptable : option (list TarAdapter))
    (default : list TarAdapter) : list TarAdapter :=
  match acceptable with
  | None => default
  | Some l => l
  end.

Section Detect.

(** The local machine: what running [argv] does. *)
Variable local_exec : list string -> subprocess.outcome.

(** The connection: what running the connection command does when the
    given text is fed to its standard input. *)
Variable remote_exec : list string -> string -> subprocess.outcome.

(** [str(e)], the text Python renders an exception with. *)
Variable str_exn : exn -> string.

(** The [for] loop of [detect_local_tar]. *)
Fixpoint detect_local_loop (acceptable : list TarAdapter)
  : result (option TarAdapter) :=
  match acceptable with
  | [] => Ok None
  | tar_flavor :: rest =>
      let argv := [cmd tar_flavor; version_option tar_flavor] in
      match subprocess.run argv true true (local_exec argv) with
      | Raise FileNotFoundError => detect_local_loop rest
      | Raise (CalledProcessError _ _) => detect_local_loop rest
      | Raise e => Raise e
      | Ok res =>
          if match_flavor_output tar_flavor (subprocess.stdout res)
          then Ok (Some tar_flavor)
          else detect_local_loop rest
      end
  end.

Definition detect_local_tar (acceptable : option (list TarAdapter))
  : result (option TarAdapter) :=
  detect_local_loop (or_default acceptable default_local).

(** The [for] loop of [detect_remote_tar]; [run] is called without
    [check], so the exit status is not looked at. *)
Fixpoint detect_remote_loop (connection_command : list string)
    (acceptable : list TarAdapter) : result (option TarAdapter) :=
  match acceptable with
  | [] => Ok None
  | tar_flavor :: rest =>
      let input := cmd tar_flavor ++ " " ++ version_option tar_flavor in
      match subprocess.run connection_command false true
              (remote_exec connection_command input) with
      | Raise (FileNotFoundError as e) | Raise (CalledProcessError _ _ as e) =>
          Raise (RuntimeError ("Error using connection command: " ++ str_exn e))
      | Raise e => Raise e
      | Ok res =>
          if match_flavor_output tar_flavor (subprocess.stdout res)
          then Ok (Some tar_flavor)
          else detect_remote_loop connection_command rest
      end
  end.

Definition detect_remote_tar (connection_command : list string)
    (acceptable : option (list TarAdapter)) : result (option TarAdapter) :=
  detect_remote_loop connection_command (or_default acceptable default_remote).

End Detect.

End tar_adapter.

(** ** posixpath: the functions of [os.path] the program calls *)

Module posixpath.

Definition sep : string := "/".
Definition slash : ascii := "/"%char.

Definition isabs (s : string) : bool := startswith s sep.

(** [join(a, b)]. *)
Definition join (a b : string) : string :=
  if startswith b sep then b
  else if (String.eqb a "" || endswith a sep) then a ++ b
  else a ++ sep ++ b.

(** [join(a, *p)]. *)
Definition join_all (a : string) (p : list string) : string :=
  fold_left join p a.

(** [s.split("/")]. *)
Fixpoint split (s : string) : list string :=
  match s with
  | EmptyString => [""]
  | String c s' =>
      if Ascii.eqb c slash then "" :: split s'
      else match split s' with
           | h :: t => String c h :: t
           | [] => [String c ""]
           end
  end.

(** [basename(p)]: what follows the last slash. *)
Definition basename (p : string) : string := last (split p) "".

(** The loop of [normpath] over the components; [new_comps] is kept
    reversed. *)
Fixpoint normpath_comps (initial_slashes : nat) (comps new_comps : list string)
  : list string :=
  match comps with
  | [] => rev new_comps
  | comp :: rest =>
      if String.eqb comp "" || String.eqb comp "." then
        normpath_comps initial_slashes rest new_comps
      else if negb (String.eqb comp "..")
              || ((initial_slashes =? 0)%nat &&
                  match new_comps with [] => true | _ => false end)
              || match new_comps with
                 | top :: _ => String.eqb top ".."
                 | [] => false
                 end
      then normpath_comps initial_slashes rest (comp :: new_comps)
      else normpath_comps initial_slashes rest (tl new_comps)
  end.

Definition normpath (path : string) : string :=
  if String.eqb path "" then "." else
  let initial_slashes :=
    if startswith path sep then
      if startswith path "//" && negb (startswith path "///") then 2
      else 1
    else 0 in
  let comps := normpath_comps initial_slashes (split path) [] in
  let path' := PyStr.join sep comps in
  let path' :=
    match initial_slashes with
    | 0 => path'
    | 1 => sep ++ path'
    | _ => "//" ++ path'
    end in
  if String.eqb path' "" then "." else path'.

Section Cwd.

(** [os.getcwd()]. *)
Variable getcwd : string.

Definition abspath (path : string) : string :=
  if isabs path then normpath path else normpath (join getcwd path).

(** [len(commonprefix([l1, l2]))] for two lists of components. *)
Fixpoint common_len (l1 l2 : list string) : nat :=
  match l1, l2 with
  | x :: l1', y :: l2' => if String.eqb x y then S (common_len l1' l2') else 0
  | _, _ => 0
  end.

Definition nonempty_comps (p : string) : list string :=
  filter (fun x => negb (String.eqb x "")) (split p).

Definition relpath (path start : string) : result string :=
  if String.eqb path "" then Raise (ValueError "no path specified") else
  let start_list := nonempty_comps (abspath start) in
  let path_list := nonempty_comps (abspath path) in
  let i := common_len start_list path_list in
  let rel_list := (repeat ".." (List.length start_list - i) ++ skipn i path_list)%list in
  match rel_list with
  | [] => Ok "."
  | a :: p => Ok (join_all a p)
  end.

End Cwd.

End posixpath.

(** ** bytes.decode() *)

Module utf8.

Definition between (lo hi : N) (c : ascii) : bool :=
  ((lo <=? N_of_ascii c) && (N_of_ascii c <=? hi))%N.

Definition cont (c : ascii) : bool := between 128 191 c.

(** The second byte of a three-byte sequence led by [c0]: no overlong
    form after E0, no surrogate after ED. *)
Definition second3 (c0 c1 : ascii) : bool :=
  if between 224 224 c0 then between 160 191 c1
  else if between 237 237 c0 then between 128 159 c1
  else cont c1.

(** The second byte of a four-byte sequence led by [c0]: no overlong form
    after F0, nothing above U+10FFFF after F4. *)
Definition second4 (c0 c1 : ascii) : bool :=
  if between 240 240 c0 then between 144 191 c1
  else if between 244 244 c0 then between 128 143 c1
  else cont c1.

Fixpoint valid (s : string) : bool :=
  match s with
  | EmptyString => true
  | String c0 s1 =>
      if between 0 127 c0 then valid s1
      else if between 194 223 c0 then
        match s1 with
        | String c1 s2 => cont c1 && valid s2
        | _ => false
        end
      else if between 224 239 c0 then
        match s1 with
        | String c1 (String c2 s3) => second3 c0 c1 && cont c2 && valid s3
        | _ => false
        end
      else if between 240 244 c0 then
        match s1 with
        | String c1 (String c2 (String c3 s4)) =>
            second4 c0 c1 && cont c2 && cont c3 && valid s4
        | _ => false
        end
      else false
  end.

(** [b.decode()]: strict UTF-8.  A [str] is kept as its UTF-8 encoding, so
    decoding well-formed bytes hands the same bytes back. *)
Definition decode (b : string) : result string :=
  if valid b then Ok b else Raise UnicodeDecodeError.

End utf8.

(** ** The observable world *)

(** What the program does to its surroundings, in the order it does it. *)
Inductive action : Type :=
| Print (text : string)
| Secho (text : string)
| Popen (args : list string)
| StdinWrite (data : string)
| StdinFlush
| StdinClose
| Wait
| Run (args : list string) (cwd : string)
| CopyFile (path : string)
| TimeTime
| Sleep
| ObserverSchedule (path : string) (recursive : bool)
| ObserverStart
| ObserverStop
| ObserverJoin.

(** The store: the actions so far and the one mutable field the program
    has, [last_event_timestamp] of the event handler object. *)
Record world : Type := {
  trace : list action;
  last_event_timestamp : float
}.

Definition log (a : action) (w : world) : world :=
  {| trace := (trace w ++ [a])%list;
     last_event_timestamp := last_event_timestamp w |}.

Definition set_last_event_timestamp (t : float) (w : world) : world :=
  {| trace := trace w; last_event_timestamp := t |}.

(** A computation: it may raise, and it changes the world. *)
Definition M (A : Type) : Type := world -> result A * world.

Definition ret {A} (a : A) : M A := fun w => (Ok a, w).

Definition raise {A} (e : exn) : M A := fun w => (Raise e, w).

Definition bind {A B} (m : M A) (k : A -> M B) : M B :=
  fun w =>
    match m w with
    | (Ok a, w') => k a w'
    | (Raise e, w') => (Raise e, w')
    end.

Notation "x <- m ;; k" := (bind m (fun x => k))
  (at level 61, m at next level, right associativity).
Notation "m ;;; k" := (bind m (fun _ => k))
  (at level 61, right associativity).

Definition emit (a : action) : M unit := fun w => (Ok tt, log a w).

Definition lift {A} (r : result A) : M A := fun w => (r, w).

Definition when (b : bool) (m : M unit) : M unit :=
  if b then m else ret tt.

(** [try: body finally: cleanup]. *)
Definition finally {A} (body : M A) (cleanup : M unit) : M A :=
  fun w =>
    match body w with
    | (r, w') =>
        match cleanup w' with
        | (Ok _, w'') => (r, w'')
        | (Raise e, w'') => (Raise e, w'')
        end
    end.

(** [for x in l: body x]. *)
Fixpoint for_each {A} (l : list A) (body : A -> M unit) : M unit :=
  match l with
  | [] => ret tt
  | x :: rest => body x ;;; for_each rest body
  end.

(** The paths [copy_file] was called with, in order. *)
Definition copy_calls (tr : list action) : list string :=
  flat_map (fun a => match a with CopyFile p => [p] | _ => [] end) tr.

(** A [copy_file] callable seen from its caller: the call is recorded, and
    whether it returns or raises is up to the callable, given what happened
    before. *)
Definition callable (outcome : string -> list action -> result unit)
  : string -> M unit :=
  fun path w =>
    let w' := log (CopyFile path) w in
    (outcome path (trace w'), w').

(** A computation that may also run forever: [None] when the fuel given to
    its loop does not suffice. *)
Definition D (A : Type) : Type := world -> option (result A * world).

Definition liftD {A} (m : M A) : D A := fun w => Some (m w).

Definition bindD {A B} (m : D A) (k : A -> D B) : D B :=
  fun w =>
    match m w with
    | None => None
    | Some (Ok a, w') => k a w'
    | Some (Raise e, w') => Some (Raise e, w')
    end.

Definition finallyD {A} (body : D A) (cleanup : M unit) : D A :=
  fun w =>
    match body w with
    | None => None
    | Some (r, w') =>
        match cleanup w' with
        | (Ok _, w'') => Some (r, w'')
        | (Raise e, w'') => Some (Raise e, w'')
        end
    end.

(** ** watchdog events *)

Module events.

(** The event classes of watchdog; only a moved event has a
    [dest_path] attribute. *)
Inductive event_class : Type :=
| Moved (dest_path : string)
| Deleted
| Created
| Modified.

Record FileSystemEvent : Type := {
  class : event_class;
  is_directory : bool;
  src_path : string
}.

Definition event_type (event : FileSystemEvent) : string :=
  match class event with
  | Moved _ => "moved"
  | Deleted => "deleted"
  | Created => "created"
  | Modified => "modified"
  end.

(** [event.dest_path], absent ([None]) when [has_attribute] is false. *)
Definition dest_path (event : FileSystemEvent) : option string :=
  match class event with
  | Moved d => Some d
  | _ => None
  end.

End events.

(** ** lib.py *)

Module lib.
Import tar_adapter events.

Definition RECEIVER_CODE (dest_dir clean_out_first receiver_tar : string)
  : string :=
  nl ++ "set -e" ++ nl ++
  "if " ++ clean_out_first ++ "; then" ++ nl ++
  "    rm -rf " ++ dest_dir ++ "/*" ++ nl ++
  "fi" ++ nl ++
  "mkdir -p " ++ dest_dir ++ nl ++
  "cd " ++ dest_dir ++ nl ++
  "while true; do" ++ nl ++
  "    " ++ receiver_tar ++ nl ++
  "done 2>/dev/null" ++ nl.

(** What the [copy_file] closure captures. *)
Record Session : Type := {
  local_tar : option TarAdapter;
  src_dir : string;
  debugging : bool
}.

Section Session.

Variable getcwd : string.

(** [subprocess.Popen(cmd, stdin=PIPE)]: whether the process starts. *)
Variable popen : list string -> result unit.

(** The run of the sender command [argv] in directory [cwd], given what
    happened before. *)
Variable tar_exec : list string -> string -> list action -> subprocess.outcome.

Definition run_sender (argv : list string) (cwd : string)
  : M subprocess.CompletedProcess :=
  fun w =>
    (subprocess.run argv true false (tar_exec argv cwd (trace w)),
     log (Run argv cwd) w).

(** The closure [copy_file] of [make_file_replicator]. *)
Definition copy_file (s : Session) (src_filename : string) : M unit :=
  let src_filename := posixpath.abspath getcwd src_filename in
  rel_src_filename <- lift (posixpath.relpath getcwd src_filename (src_dir s)) ;;
  when (debugging s) (emit (Print ("Sending " ++ src_filename ++ "..."))) ;;;
  argv <- match local_tar s with
          | Some t => ret (sender_cmd t rel_src_filename)
          | None => raise (AttributeError "sender_cmd")
          end ;;
  result <- run_sender argv (src_dir s) ;;
  (if negb (String.eqb (subprocess.stderr result) "") then
     text <- lift (utf8.decode (subprocess.stderr result)) ;;
     if str_in "No such file or directory" text then ret tt
     else
       text' <- lift (utf8.decode (subprocess.stderr result)) ;;
       raise (RuntimeError ("ERROR: " ++ text'))
   else ret tt) ;;;
  emit StdinFlush.

(** The part of [make_file_replicator] before the [yield]. *)
Definition make_file_replicator_enter
    (local_tar remote_tar : option TarAdapter)
    (src_dir dest_parent_dir : string)
    (bash_connection_command : list string)
    (clean_out_first debugging : bool) : M Session :=
  let src_dir := posixpath.abspath getcwd src_dir in
  let dest_parent_dir := posixpath.abspath getcwd dest_parent_dir in
  let dest_dir := posixpath.join dest_parent_dir (posixpath.basename src_dir) in
  lift (popen bash_connection_command) ;;;
  emit (Popen bash_connection_command) ;;;
  receiver_tar <- match remote_tar with
                  | Some t => ret (receiver_cmd_str t)
                  | None => raise (AttributeError "receiver_cmd_str")
                  end ;;
  let receiver_code :=
    RECEIVER_CODE dest_dir (str_bool_lower clean_out_first) receiver_tar in
  emit (StdinWrite receiver_code) ;;;
  emit StdinFlush ;;;
  ret {| local_tar := local_tar; src_dir := src_dir; debugging := debugging |}.

(** The [finally] clause of [make_file_replicator]. *)
Definition make_file_replicator_exit : M unit :=
  emit StdinClose ;;; emit Wait.

(** [with make_file_replicator(...) as copy_file: body copy_file]. *)
Definition make_file_replicator {A}
    (local_tar remote_tar : option TarAdapter)
    (src_dir dest_parent_dir : string)
    (bash_connection_command : list string)
    (clean_out_first debugging : bool)
    (body : (string -> M unit) -> D A) : D A :=
  bindD (liftD (make_file_replicator_enter local_tar remote_tar src_dir
                  dest_parent_dir bash_connection_command clean_out_first
                  debugging))
        (fun s => finallyD (body (copy_file s)) make_file_replicator_exit).

End Session.

Section Replicate.

(** The ignore matcher of the [pathspec] package, by its contract. *)
Variable PathSpec : Type.
Variable from_lines : list string -> PathSpec.
Variable match_file : PathSpec -> string -> bool.

(** The file system: which paths are regular files, the lines of a
    file, and the relative paths [pathspec.util.iter_tree] yields. *)
Variable isfile : string -> bool.
Variable readlines : string -> list string.
Variable iter_tree : string -> list string.

Definition get_pathspec (src_dir : string) (use_gitignore : bool) : PathSpec :=
  let gitignore_filename := posixpath.join src_dir ".gitignore" in
  if use_gitignore && isfile gitignore_filename
  then from_lines (readlines gitignore_filename)
  else from_lines [].

Definition replicate_all_files (src_dir : string)
    (copy_file : string -> M unit) (use_gitignore debugging : bool) : M unit :=
  let spec := get_pathspec src_dir use_gitignore in
  for_each (iter_tree src_dir) (fun filename =>
    if negb (match_file spec filename)
    then copy_file (posixpath.join src_dir filename)
    else ret tt).

(** *** The event handlers *)

(** [time.time()], given what happened before. *)
Variable clock : list action -> float.

Definition time_time : M float :=
  fun w => (Ok (clock (trace w)), log TimeTime w).

(** [str(event.key)]. *)
Variable str_key : FileSystemEvent -> string.

Inductive EventHandler : Type :=
| CopyFileEventHandler (copy_file : string -> M unit) (debugging : bool)
| GitIgnoreCopyFileEventHandler (copy_file : string -> M unit)
    (ignore_spec : PathSpec) (debugging : bool).

Definition self_copy_file (self : EventHandler) : string -> M unit :=
  match self with
  | CopyFileEventHandler f _ | GitIgnoreCopyFileEventHandler f _ _ => f
  end.

Definition self_debugging (self : EventHandler) : bool :=
  match self with
  | CopyFileEventHandler _ d | GitIgnoreCopyFileEventHandler _ _ d => d
  end.

(** The assignment [self.last_event_timestamp = time.time()]. *)
Definition touch : M unit :=
  t <- time_time ;;
  (fun w => (Ok tt, set_last_event_timestamp t w)).

(** [__init__] of either class. *)
Definition init (self : EventHandler) : M EventHandler :=
  touch ;;; ret self.

Definition on_any_event (self : EventHandler) (event : FileSystemEvent)
  : M unit :=
  touch ;;;
  when (self_debugging self)
    (emit (Print ("Detected change: " ++ str_key event))) ;;;
  if String.eqb (event_type event) "deleted" then ret tt
  else if is_directory event && String.eqb (event_type event) "modified"
  then ret tt
  else if String.eqb (event_type event) "moved" then
    match dest_path event with
    | Some d => self_copy_file self d
    | None => raise (AttributeError "dest_path")
    end
  else self_copy_file self (src_path event).

(** [FileSystemEventHandler.dispatch] of watchdog: [on_any_event], then
    the [on_moved], [on_created], [on_deleted] or [on_modified] method,
    none of which the two classes override. *)
Definition FileSystemEventHandler_dispatch (self : EventHandler)
    (event : FileSystemEvent) : M unit :=
  on_any_event self event.

(** [dispatch]: overridden by [GitIgnoreCopyFileEventHandler]. *)
Definition dispatch (self : EventHandler) (event : FileSystemEvent) : M unit :=
  match self with
  | CopyFileEventHandler _ _ => FileSystemEventHandler_dispatch self event
  | GitIgnoreCopyFileEventHandler _ spec debugging =>
      if negb (String.eqb (src_path event) "")
         && match_file spec (src_path event)
      then
        when debugging
          (emit (Print ("Ignoring source change on " ++ src_path event)))
      else
        match dest_path event with
        | Some d =>
            if match_file spec d then
              when debugging
                (emit (Print ("Ignoring destination change on " ++ d)))
            else FileSystemEventHandler_dispatch self event
        | None => FileSystemEventHandler_dispatch self event
        end
  end.

End Replicate.

(** *** The watch phase *)

(** [if timeout:] for a timeout that is [None] or a float. *)
Definition truthy (timeout : option float) : bool :=
  match timeout with
  | None => false
  | Some t => negb (PrimFloat.eqb t 0)
  end.

(** [raise_if_timeout], given the reading [now] of [time.time()]. *)
Definition raise_if_timeout (now last_change timeout : float) : result unit :=
  let elapsed := PrimFloat.sub now last_change in
  if PrimFloat.ltb timeout elapsed
  then Raise (NoChangeTimeoutError elapsed)
  else Ok tt.

Section Watch.

Variable getcwd : string.
Variable PathSpec : Type.
Variable from_lines : list string -> PathSpec.
Variable isfile : string -> bool.
Variable readlines : string -> list string.
Variable clock : list action -> float.

(** The main thread polls while the notification thread runs the
    handler.  In round [i] of the loop the main thread reads
    [observed i] from [event_handler.last_event_timestamp], the clock
    shows [now i], and [interrupted i] tells whether the operator's
    interrupt arrives during the sleep of that round. *)
Variable observed : nat -> float.
Variable now : nat -> float.
Variable interrupted : nat -> bool.

(** [while True:] of [replicate_files_on_change], from round [i] on.
    The loop is left by an exception only; [None] when the fuel runs
    out first. *)
Fixpoint poll (timeout : option float) (fuel i : nat) (w : world)
  : option (exn * world) :=
  match fuel with
  | O => None
  | S fuel' =>
      let checked :=
        match timeout with
        | Some t =>
            if truthy timeout
            then (raise_if_timeout (now i) (observed i) t, log TimeTime w)
            else (Ok tt, w)
        | None => (Ok tt, w)
        end in
      match checked with
      | (Raise e, w1) => Some (e, w1)
      | (Ok _, w1) =>
          let w2 := log Sleep w1 in
          if interrupted i then Some (KeyboardInterrupt, w2)
          else poll timeout fuel' (S i) w2
      end
  end.

(** [replicate_files_on_change], for the runs in which the set-up before
    the [try] statement (reading the ignore file, scheduling and starting
    the observer) succeeds and [observer.join()] is not interrupted. *)
Definition replicate_files_on_change (fuel : nat) (src_dir : string)
    (copy_file : string -> M unit) (timeout : option float)
    (use_gitignore debugging : bool) : D unit :=
  let src_dir := posixpath.abspath getcwd src_dir in
  bindD (liftD (
    event_handler <-
      (if use_gitignore then
         let spec := get_pathspec from_lines isfile readlines src_dir use_gitignore in
         init clock (GitIgnoreCopyFileEventHandler copy_file spec debugging)
       else init clock (CopyFileEventHandler PathSpec copy_file debugging)) ;;
    emit (ObserverSchedule src_dir true) ;;;
    when debugging (emit (Print "Starting observer")) ;;;
    emit ObserverStart))
  (fun _ w =>
     match poll timeout fuel 0 w with
     | None => None
     | Some (e, w') =>
         match e with
         | KeyboardInterrupt | NoChangeTimeoutError _ =>
             Some ((emit ObserverStop ;;;
                    when debugging (emit (Print "Exitting on {e}")) ;;;
                    emit ObserverJoin) w')
         | _ => Some (Raise e, w')
         end
     end).

End Watch.

End lib.

(** ** cli.py *)

Module cli.
Import tar_adapter lib.

(** The flags that set [local_tar_fn] and [remote_tar_fn]; the defaults
    are [local_tar_detect] and [remote_tar_gnu]. *)
Inductive local_tar_flag : Type :=
| local_tar_gnu
| local_tar_bsd
| local_tar_gnu_prefix
| local_tar_detect.

Inductive remote_tar_flag : Type :=
| remote_tar_gnu
| remote_tar_gnu_prefix
| remote_tar_detect.

(** The parameters [click] passes to [main]. *)
Record Params : Type := {
  src_dir : string;
  dest_parent_dir : string;
  connection_command : list string;
  clean_out_first : bool;
  with_initial_replication : bool;
  replicate_on_change : bool;
  gitignore : bool;
  debugging : bool;
  local_tar_fn : local_tar_flag;
  remote_tar_fn : remote_tar_flag
}.

(** [str(x)] for an adapter or [None]. *)
Definition str_tar (x : option TarAdapter) : string :=
  match x with
  | Some (GnuTarAdapter p) => "Gnu Tar [" ++ cmd (GnuTarAdapter p) ++ "]"
  | Some BsdTarAdapter => "BSD Tar"
  | Some BusyBoxTarAdapter => "BusyBox Tar"
  | None => "None"
  end.

Section Main.

Variable getcwd : string.
Variable path_exists : string -> bool.
Variable isdir : string -> bool.
Variable isfile : string -> bool.
Variable readlines : string -> list string.
Variable iter_tree : string -> list string.
Variable PathSpec : Type.
Variable from_lines : list string -> PathSpec.
Variable match_file : PathSpec -> string -> bool.
Variable local_exec : list string -> subprocess.outcome.
Variable remote_exec : list string -> string -> subprocess.outcome.
Variable str_exn : exn -> string.
Variable popen : list string -> result unit.
Variable tar_exec : list string -> string -> list action -> subprocess.outcome.
Variable clock : list action -> float.
Variable observed : nat -> float.
Variable now : nat -> float.
Variable interrupted : nat -> bool.

Definition call_local_tar_fn (f : local_tar_flag) : result (option TarAdapter) :=
  match f with
  | local_tar_gnu => Ok (Some (GnuTarAdapter ""))
  | local_tar_bsd => Ok (Some BsdTarAdapter)
  | local_tar_gnu_prefix => Ok (Some (GnuTarAdapter "g"))
  | local_tar_detect => detect_local_tar local_exec None
  end.

Definition call_remote_tar_fn (f : remote_tar_flag) (cmd : list string)
  : result (option TarAdapter) :=
  match f with
  | remote_tar_gnu => Ok (Some (GnuTarAdapter ""))
  | remote_tar_gnu_prefix => Ok (Some (GnuTarAdapter "g"))
  | remote_tar_detect => detect_remote_tar remote_exec str_exn cmd None
  end.

(** [main] up to the [with] statement: the adapters the session is
    opened with. *)
Definition main_checks (a : Params)
  : M (option TarAdapter * option TarAdapter) :=
  (match connection_command a with
   | [] => raise (UsageError
       "Please provide a connection command to access the destination server.")
   | _ => ret tt
   end) ;;;
  (if negb (posixpath.isabs (dest_parent_dir a)) then
     raise (UsageError
       "The destination parent directory must be an absolute path.")
   else ret tt) ;;;
  (if negb (path_exists (src_dir a)) || negb (isdir (src_dir a)) then
     raise (UsageError "The source destination must exist and be a directory.")
   else ret tt) ;;;
  local_tar <- lift (call_local_tar_fn (local_tar_fn a)) ;;
  remote_tar <- lift (call_remote_tar_fn (remote_tar_fn a) (connection_command a)) ;;
  when (debugging a)
    (emit (Print ("Local tar: " ++ str_tar local_tar)) ;;;
     emit (Print ("Remote tar: " ++ str_tar remote_tar))) ;;;
  (if negb (isinstance_GnuTarAdapter remote_tar) then
     (* the exception object is built and dropped: there is no [raise] *)
     let _ := UsageError "Cannot use non-gnu remote tar!" in ret tt
   else ret tt) ;;;
  when (clean_out_first a)
    (emit (Secho "Clearing out all destination files first!")) ;;;
  ret (local_tar, remote_tar).

Definition main (fuel : nat) (a : Params) : D unit :=
  bindD (liftD (main_checks a)) (fun tars =>
    let '(local_tar, remote_tar) := tars in
    make_file_replicator getcwd popen tar_exec
      local_tar remote_tar (src_dir a) (dest_parent_dir a)
      (connection_command a) (clean_out_first a) (debugging a)
      (fun copy_file =>
         bindD (liftD (
           if with_initial_replication a then
             replicate_all_files from_lines match_file isfile readlines
               iter_tree (src_dir a) copy_file (gitignore a) (debugging a)
           else ret tt))
         (fun _ =>
           if replicate_on_change a then
             replicate_files_on_change getcwd from_lines isfile
               readlines clock observed now interrupted fuel (src_dir a)
               copy_file None (gitignore a) (debugging a)
           else liftD (ret tt)))).

End Main.

End cli.

(** * The vocabulary of the properties *)

(** ** Probes *)

Section Probes.
Import tar_adapter.

Variable local_exec : list string -> subprocess.outcome.
Variable remote_exec : list string -> string -> subprocess.outcome.

(** What the local probe of a candidate does. *)
Definition local_probe (t : TarAdapter) : subprocess.outcome :=
  local_exec [cmd t; version_option t].

(** The probe could not be executed because the binary is missing, or it
    exited with a nonzero status. *)
Definition local_skipped (t : TarAdapter) : Prop :=
  local_probe t = subprocess.NoSuchFile
  \/ exists cp, local_probe t = subprocess.Exited cp
              /\ subprocess.returncode cp <> 0%Z.

(** The probe exited with status zero and the candidate's test of the
    captured output gave [verdict]. *)
Definition local_tested (t : TarAdapter) (verdict : bool) : Prop :=
  exists cp, local_probe t = subprocess.Exited cp
          /\ subprocess.returncode cp = 0%Z
          /\ match_flavor_output t (subprocess.stdout cp) = verdict.

Definition local_passed_over (t : TarAdapter) : Prop :=
  local_skipped t \/ local_tested t false.

Definition local_accepted (t : TarAdapter) : Prop := local_tested t true.

(** The probe ends in exception [e]: it cannot be launched for another
    reason than a missing binary, or its output cannot be decoded. *)
Definition local_probe_raises (t : TarAdapter) (e : exn) : Prop :=
  (local_probe t = subprocess.LaunchFailed /\ e = OSError)
  \/ ((exists cp, local_probe t = subprocess.Undecodable cp)
      /\ e = UnicodeDecodeError).

(** What the probe of a candidate through the connection does. *)
Definition remote_probe (connection_command : list string) (t : TarAdapter)
  : subprocess.outcome :=
  remote_exec connection_command (cmd t ++ " " ++ version_option t).

(** The probe shell ran, with whatever exit status, and the candidate's
    test of the captured output gave [verdict]. *)
Definition remote_tested (connection_command : list string) (t : TarAdapter)
    (verdict : bool) : Prop :=
  exists cp, remote_probe connection_command t = subprocess.Exited cp
          /\ match_flavor_output t (subprocess.stdout cp) = verdict.

Definition remote_passed_over (connection_command : list string)
    (t : TarAdapter) : Prop :=
  remote_tested connection_command t false.

Definition remote_accepted (connection_command : list string)
    (t : TarAdapter) : Prop :=
  remote_tested connection_command t true.

(** The probe shell process could not be launched. *)
Definition remote_launch_fails (connection_command : list string)
    (t : TarAdapter) : Prop :=
  remote_probe connection_command t = subprocess.NoSuchFile
  \/ remote_probe connection_command t = subprocess.LaunchFailed.

(** The probe shell ran but what it printed cannot be decoded. *)
Definition remote_undecodable (connection_command : list string)
    (t : TarAdapter) : Prop :=
  exists cp, remote_probe connection_command t = subprocess.Undecodable cp.

End Probes.

(** A machine on which every command prints the version text of GNU tar
    and exits with status 1. *)
Definition gnu_text_exit_1 : subprocess.outcome :=
  subprocess.Exited
    {| subprocess.returncode := 1;
       subprocess.stdout := "tar (GNU tar) 1.31";
       subprocess.stderr := "" |}.

(** A machine on which every command prints the version text of bsdtar and
    exits with status 0. *)
Definition bsd_text_exit_0 : subprocess.outcome :=
  subprocess.Exited
    {| subprocess.returncode := 0;
       subprocess.stdout := "bsdtar 2.8.3 - libarchive 2.8.3";
       subprocess.stderr := "" |}.

(** A rendering of exceptions, for the examples. *)
Definition plain_str_exn (e : exn) : string :=
  match e with
  | FileNotFoundError => "[Errno 2] No such file or directory"
  | _ => "error"
  end.

(** ** The session *)

(** The world in which [copy_file] runs the sender command: the one it was
    called in, after the announcement printed when debugging. *)
Definition announced (getcwd : string) (s : lib.Session) (src_filename : string)
    (w : world) : world :=
  if lib.debugging s
  then log (Print ("Sending " ++ posixpath.abspath getcwd src_filename ++ "...")) w
  else w.

Definition not_found_text : string := "No such file or directory".

(** A session that sends [/home/u/test] with GNU tar. *)
Definition gnu_session : lib.Session :=
  {| lib.local_tar := Some (tar_adapter.GnuTarAdapter "");
     lib.src_dir := "/home/u/test";
     lib.debugging := false |}.

(** A session that sends [/home/u/test] with BSD tar. *)
Definition bsd_session : lib.Session :=
  {| lib.local_tar := Some tar_adapter.BsdTarAdapter;
     lib.src_dir := "/home/u/test";
     lib.debugging := false |}.

Definition world0 : world :=
  {| trace := []; last_event_timestamp := 0%float |}.

(** A sender that exits with status [rc] after writing [diagnostic] to its
    error channel. *)
Definition sender_exits (rc : Z) (diagnostic : string)
  : list string -> string -> list action -> subprocess.outcome :=
  fun _ _ _ =>
    subprocess.Exited
      {| subprocess.returncode := rc;
         subprocess.stdout := "";
         subprocess.stderr := diagnostic |}.

(** What GNU tar with [--ignore-failed-read] and BSD tar write when the file
    has vanished, and another diagnostic. *)
Definition gnu_vanished : string :=
  "tar: a.txt: Warning: Cannot stat: No such file or directory" ++ nl.

Definition bsd_vanished : string :=
  "tar: a.txt: Cannot stat: No such file or directory" ++ nl.

Definition denied : string :=
  "tar: a.txt: Cannot open: Permission denied" ++ nl.

(** The vanished-file diagnostic for a file name with the Latin-1 byte E9
    in it. *)
Definition latin1_vanished : string :=
  "tar: caf" ++ String (ascii_of_nat 233) ".txt: Cannot stat: No such file or directory".

(** ** Events and handlers *)

Section HandlerVocabulary.
Import events.

Variable PathSpec : Type.
Variable match_file : PathSpec -> string -> bool.

(** The handler of the watch phase: with ignore rules ([Some spec]) or
    without, its [copy_file] being a recorded callable. *)
Definition watch_handler (ignore_spec : option PathSpec)
    (outcome : string -> list action -> result unit) (debugging : bool)
  : lib.EventHandler PathSpec :=
  match ignore_spec with
  | Some spec => lib.GitIgnoreCopyFileEventHandler (callable outcome) spec debugging
  | None => lib.CopyFileEventHandler PathSpec (callable outcome) debugging
  end.

(** The ignore test on the paths of an event as the event carries them. *)
Definition ignored (spec : PathSpec) (event : FileSystemEvent) : bool :=
  (negb (String.eqb (src_path event) "") && match_file spec (src_path event))
  || match dest_path event with
     | Some d => match_file spec d
     | None => false
     end.

(** Whether the ignore matcher drops the event. *)
Definition dropped (ignore_spec : option PathSpec) (event : FileSystemEvent)
  : bool :=
  match ignore_spec with
  | Some spec => ignored spec event
  | None => false
  end.

(** The world after the first two statements of [on_any_event]: the
    time stamp is taken, and the change is printed when debugging. *)
Definition noted (clock : list action -> float)
    (str_key : FileSystemEvent -> string) (debugging : bool)
    (event : FileSystemEvent) (w : world) : world :=
  let w1 := set_last_event_timestamp (clock (trace w)) (log TimeTime w) in
  if debugging then log (Print ("Detected change: " ++ str_key event)) w1 else w1.

(** The paths bulk replication is meant to copy: the discovered files the
    matcher does not match, joined to the source directory. *)
Definition to_copy (spec : PathSpec) (src_dir : string)
    (discovered : list string) : list string :=
  map (posixpath.join src_dir)
      (filter (fun filename => negb (match_file spec filename)) discovered).

End HandlerVocabulary.

(** The matcher of the one rule [/build/], anchored at the source root: it
    matches the relative paths below [build/]. *)
Definition anchored_build (spec : unit) (path : string) : bool :=
  String.prefix "build/" path.

(** An object file created below [build/] in the source root
    [/home/u/test], as the notification thread reports it. *)
Definition build_output_created : events.FileSystemEvent :=
  {| events.class := events.Created;
     events.is_directory := false;
     events.src_path := "/home/u/test/build/out.o" |}.

Definition no_key (event : events.FileSystemEvent) : string := "".

Definition always_ok (path : string) (history : list action) : result unit :=
  Ok tt.

Definition frozen_clock (history : list action) : float := 0%float.

(** A file renamed inside the source root. *)
Definition renamed : events.FileSystemEvent :=
  {| events.class := events.Moved "/home/u/test/b.txt";
     events.is_directory := false;
     events.src_path := "/home/u/test/a.txt" |}.

(** A source tree with three files, and the matcher of the one rule
    [*.pyc]. *)
Definition small_tree (src_dir : string) : list string :=
  ["a.txt"; "b/c.txt"; "b/c.pyc"].

Definition pyc_rule (spec : unit) (path : string) : bool :=
  endswith path ".pyc".

(** ** The watch phase *)

Section WatchVocabulary.

Variable clock : list action -> float.
Variable observed : nat -> float.
Variable now : nat -> float.
Variable interrupted : nat -> bool.

(** In round [i] the time since the last tracked event exceeds the
    timeout [t]: the test of [raise_if_timeout]. *)
Definition timed_out (t : float) (i : nat) : bool :=
  PrimFloat.ltb t (PrimFloat.sub (now i) (observed i)).

(** Rounds [i], ..., [i + n - 1] are quiet: no timeout, no interrupt. *)
Definition quiet_until (t : float) (n : nat) : Prop :=
  forall i, i < n -> timed_out t i = false /\ interrupted i = false.

(** What one round of the loop does when it is not left: the clock is read
    if the timeout is checked, then the thread sleeps. *)
Definition round_actions (checked : bool) : list action :=
  ((if checked then [TimeTime] else []) ++ [Sleep])%list.

Definition round (checked : bool) (w : world) : world :=
  log Sleep (if checked then log TimeTime w else w).

Fixpoint rounds (checked : bool) (n : nat) (w : world) : world :=
  match n with
  | O => w
  | S n' => rounds checked n' (round checked w)
  end.

(** The world once the observer is started. *)
Definition started (src_dir : string) (debugging : bool) (w : world) : world :=
  let w1 := set_last_event_timestamp (clock (trace w)) (log TimeTime w) in
  let w2 := log (ObserverSchedule src_dir true) w1 in
  log ObserverStart (if debugging then log (Print "Starting observer") w2 else w2).

Definition setup_actions (src_dir : string) (debugging : bool) : list action :=
  ([TimeTime; ObserverSchedule src_dir true]
   ++ (if debugging then [Print "Starting observer"] else [])
   ++ [ObserverStart])%list.

(** What the [except] clause and the last statement do. *)
Definition shutdown_actions (debugging : bool) : list action :=
  ([ObserverStop]
   ++ (if debugging then [Print "Exitting on {e}"] else [])
   ++ [ObserverJoin])%list.

End WatchVocabulary.

(** A watch in which five seconds have always passed since the last event
    and nobody interrupts. *)
Definition five : nat -> float := fun _ => 5%float.
Definition one : nat -> float := fun _ => 1%float.
Definition zero : nat -> float := fun _ => 0%float.
Definition nobody : nat -> bool := fun _ => false.

(** The operator interrupts during the third round. *)
Definition in_round_2 (i : nat) : bool := Nat.eqb i 2.

Definition no_copy (path : string) : M unit := ret tt.

(** The clock shows one second since the last event in the first two
    rounds and five from the third on. *)
Definition late (i : nat) : float :=
  if Nat.ltb i 2 then 1%float else 5%float.

(** ** A run of the command line *)

(** The operator asks for detection of the remote tar. *)
Definition detect_run : cli.Params :=
  {| cli.src_dir := "/home/u/test";
     cli.dest_parent_dir := "/srv";
     cli.connection_command := ["ssh"; "host"; "bash"];
     cli.clean_out_first := false;
     cli.with_initial_replication := true;
     cli.replicate_on_change := true;
     cli.gitignore := true;
     cli.debugging := false;
     cli.local_tar_fn := cli.local_tar_gnu;
     cli.remote_tar_fn := cli.remote_tar_detect |}.

Definition everything_exists (path : string) : bool := true.
Definition no_file (path : string) : bool := false.
Definition no_lines (path : string) : list string := [].
Definition empty_spec (lines : list string) : unit := tt.
Definition spawns (args : list string) : result unit := Ok tt.

(** ** Further vocabulary: detection *)

Section ProbeAgreement.
Import tar_adapter.

Variable local_exec : list string -> subprocess.outcome.
Variable remote_exec : list string -> string -> subprocess.outcome.

(** What a detector that found nothing in a first list does with a second
    one. *)
Definition or_else (first next : result (option TarAdapter))
  : result (option TarAdapter) :=
  match first with
  | Ok None => next
  | _ => first
  end.

(** The local probe and the probe through the connection of candidate [t]
    both run, exit with status zero and print the same text. *)
Definition probes_agree (connection_command : list string) (t : TarAdapter)
  : Prop :=
  exists cp,
    local_probe local_exec t = subprocess.Exited cp
    /\ remote_probe remote_exec connection_command t = subprocess.Exited cp
    /\ subprocess.returncode cp = 0%Z.

End ProbeAgreement.

(** A machine with GNU tar under the name [gtar] only. *)
Definition only_gtar (argv : list string) : subprocess.outcome :=
  match argv with
  | "gtar" :: _ =>
      subprocess.Exited
        {| subprocess.returncode := 0;
           subprocess.stdout := "tar (GNU tar) 1.31";
           subprocess.stderr := "" |}
  | _ => subprocess.NoSuchFile
  end.

(** A machine on which [tar] cannot be executed and nothing else exists. *)
Definition tar_not_executable (argv : list string) : subprocess.outcome :=
  match argv with
  | "tar" :: _ => subprocess.LaunchFailed
  | _ => subprocess.NoSuchFile
  end.

(** A shell that knows [gtar] only: it answers the probe text for [gtar]
    with the GNU text and any other with nothing and status 127. *)
Definition shell_with_gtar (connection_command : list string) (input : string)
  : subprocess.outcome :=
  if String.eqb input "gtar --version" then
    subprocess.Exited
      {| subprocess.returncode := 0;
         subprocess.stdout := "tar (GNU tar) 1.31";
         subprocess.stderr := "" |}
  else
    subprocess.Exited
      {| subprocess.returncode := 127;
         subprocess.stdout := "";
         subprocess.stderr := "" |}.

(** A machine on which every command prints the GNU text and exits with
    status 0. *)
Definition gnu_text_exit_0 : subprocess.outcome :=
  subprocess.Exited
    {| subprocess.returncode := 0;
       subprocess.stdout := "tar (GNU tar) 1.31";
       subprocess.stderr := "" |}.

(** ** Further vocabulary: the session *)

(** A session for which local detection found no tar. *)
Definition no_adapter_session : lib.Session :=
  {| lib.local_tar := None;
     lib.src_dir := "/home/u/test";
     lib.debugging := true |}.

(** The receiver script of a session: the template filled with the
    destination directory, the flag and the receiver command. *)
Definition receiver_script (getcwd : string) (remote_tar : tar_adapter.TarAdapter)
    (src_dir dest_parent_dir : string) (clean_out_first : bool) : string :=
  lib.RECEIVER_CODE
    (posixpath.join (posixpath.abspath getcwd dest_parent_dir)
       (posixpath.basename (posixpath.abspath getcwd src_dir)))
    (str_bool_lower clean_out_first)
    (tar_adapter.receiver_cmd_str remote_tar).

(** What opening the session does. *)
Definition enter_actions (getcwd : string) (remote_tar : tar_adapter.TarAdapter)
    (src_dir dest_parent_dir : string) (bash_connection_command : list string)
    (clean_out_first : bool) : list action :=
  [Popen bash_connection_command;
   StdinWrite (receiver_script getcwd remote_tar src_dir dest_parent_dir
                 clean_out_first);
   StdinFlush].

(** The world once the session is open. *)
Definition entered (getcwd : string) (remote_tar : tar_adapter.TarAdapter)
    (src_dir dest_parent_dir : string) (bash_connection_command : list string)
    (clean_out_first : bool) (w : world) : world :=
  log StdinFlush
    (log (StdinWrite (receiver_script getcwd remote_tar src_dir dest_parent_dir
                        clean_out_first))
       (log (Popen bash_connection_command) w)).

(** The session the body of the [with] statement works with. *)
Definition session_of (getcwd : string) (local_tar : option tar_adapter.TarAdapter)
    (src_dir : string) (debugging : bool) : lib.Session :=
  {| lib.local_tar := local_tar;
     lib.src_dir := posixpath.abspath getcwd src_dir;
     lib.debugging := debugging |}.

(** A connection command that does not exist. *)
Definition no_such_command (args : list string) : result unit :=
  Raise FileNotFoundError.

(** A body of the [with] statement that copies one file. *)
Definition copy_a_txt (copy_file : string -> M unit) : D unit :=
  liftD (copy_file "/home/u/test/a.txt").

(** ** Further vocabulary: handlers and bulk replication *)

(** A compiled file created in the source root. *)
Definition pyc_created : events.FileSystemEvent :=
  {| events.class := events.Created;
     events.is_directory := false;
     events.src_path := "/home/u/test/b/c.pyc" |}.

(** A file deleted in the source root. *)
Definition a_txt_deleted : events.FileSystemEvent :=
  {| events.class := events.Deleted;
     events.is_directory := false;
     events.src_path := "/home/u/test/a.txt" |}.

(** A clock that shows seven seconds. *)
Definition clock_at_7 (history : list action) : float := 7%float.

(** A [copy_file] that fails on one path. *)
Definition fails_on (bad path : string) (history : list action) : result unit :=
  if String.eqb path bad
  then Raise (RuntimeError "ERROR: tar: Cannot open: Permission denied")
  else Ok tt.

(** A matcher that matches nothing, whatever the rules. *)
Definition matches_nothing (spec : unit) (path : string) : bool := false.

(** The actions of the polling loop: reading the clock and sleeping. *)
Definition polling_action (a : action) : Prop := a = TimeTime \/ a = Sleep.

(** ** Further vocabulary: runs of the command line *)

(** A run with both phases switched off. *)
Definition idle_run : cli.Params :=
  {| cli.src_dir := "/home/u/test";
     cli.dest_parent_dir := "/srv";
     cli.connection_command := ["ssh"; "host"; "bash"];
     cli.clean_out_first := false;
     cli.with_initial_replication := false;
     cli.replicate_on_change := false;
     cli.gitignore := true;
     cli.debugging := false;
     cli.local_tar_fn := cli.local_tar_gnu;
     cli.remote_tar_fn := cli.remote_tar_gnu |}.

(** A run without a connection command. *)
Definition no_command_run : cli.Params :=
  {| cli.src_dir := "/home/u/test";
     cli.dest_parent_dir := "/srv";
     cli.connection_command := [];
     cli.clean_out_first := false;
     cli.with_initial_replication := true;
     cli.replicate_on_change := true;
     cli.gitignore := true;
     cli.debugging := false;
     cli.local_tar_fn := cli.local_tar_detect;
     cli.remote_tar_fn := cli.remote_tar_detect |}.

(** A run that only watches. *)
Definition watch_run : cli.Params :=
  {| cli.src_dir := "/home/u/test";
     cli.dest_parent_dir := "/srv";
     cli.connection_command := ["ssh"; "host"; "bash"];
     cli.clean_out_first := false;
     cli.with_initial_replication := false;
     cli.replicate_on_change := true;
     cli.gitignore := true;
     cli.debugging := false;
     cli.local_tar_fn := cli.local_tar_gnu;
     cli.remote_tar_fn := cli.remote_tar_gnu |}.

(** The three usage errors of [main]. *)
Definition usage_no_command : string :=
  "Please provide a connection command to access the destination server.".
Definition usage_relative_dest : string :=
  "The destination parent directory must be an absolute path.".
Definition usage_no_source : string :=
  "The source destination must exist and be a directory.".

(** A machine with bsdtar under the name [tar] and a [gtar] that cannot be
    executed (the file is there but not executable). *)
Definition gtar_not_executable (argv : list string) : subprocess.outcome :=
  match argv with
  | "gtar" :: _ => subprocess.LaunchFailed
  | "tar" :: _ => bsd_text_exit_0
  | _ => subprocess.NoSuchFile
  end.

(** A machine whose [tar] prints bytes that are not text in the locale's
    encoding. *)
Definition tar_prints_garbage (argv : list string) : subprocess.outcome :=
  match argv with
  | "tar" :: _ =>
      subprocess.Undecodable
        {| subprocess.returncode := 0;
           subprocess.stdout := String (ascii_of_nat 255) "";
           subprocess.stderr := "" |}
  | _ => subprocess.NoSuchFile
  end.

(** * Properties *)

(** ** Substrings *)

Section Substrings.

Lemma prefix_app (p s : string) :
  String.prefix p s = true <-> exists post, s = p ++ post.
Proof.
  revert s; induction p as [|a p IH]; intros s; simpl.
  - split; [intros _; exists s; reflexivity | destruct s; reflexivity].
  - destruct s as [|b s]; simpl.
    + split; [discriminate | intros [post H]; discriminate].
    + destruct (ascii_dec a b) as [->|Hab].
      * rewrite IH. split; intros [post H]; exists post.
        -- now rewrite H.
        -- now injection H.
      * split; [discriminate|].
        intros [post H]. injection H as H1 _. congruence.
Qed.

Lemma str_in_Occurs (sub s : string) :
  str_in sub s = true <-> Occurs sub s.
Proof.
  split.
  - induction s as [|c s IH]; intros H.
    + destruct sub; [exists "", ""; reflexivity | discriminate H].
    + change (String.prefix sub (String c s) || str_in sub s = true) in H.
      apply orb_true_iff in H as [H|H].
      * apply prefix_app in H as [post H]. exists "", post. exact H.
      * destruct (IH H) as (pre & post & ->).
        exists (String c pre), post. reflexivity.
  - intros (pre & post & ->).
    induction pre as [|c pre IH].
    + assert (H : String.prefix sub (sub ++ post) = true)
        by (apply prefix_app; eauto).
      change ("" ++ sub ++ post) with (sub ++ post).
      destruct (sub ++ post); unfold str_in; fold str_in; rewrite H; reflexivity.
    + change (String.prefix sub (String c (pre ++ sub ++ post))
              || str_in sub (pre ++ sub ++ post) = true).
      rewrite IH. apply orb_true_r.
Qed.

Lemma str_in_not_Occurs (sub s : string) :
  str_in sub s = false <-> ~ Occurs sub s.
Proof.
  rewrite <- str_in_Occurs. destruct (str_in sub s); split; congruence.
Qed.

End Substrings.

(** ** The adapters *)

Section Adapters.
Import tar_adapter.

(** The version texts of the mock tars of the test suite. *)
Example gnu_version_matches :
  match_flavor_output (GnuTarAdapter "g") ("tar (GNU tar) 1.31" ++ nl) = true.
Proof. reflexivity. Qed.

Example bsd_version_matches :
  match_flavor_output BsdTarAdapter "bsdtar 2.8.3 - libarchive 2.8.3" = true.
Proof. reflexivity. Qed.

Example busybox_version_matches :
  match_flavor_output BusyBoxTarAdapter "tar (busybox) 1.28.4" = true.
Proof. reflexivity. Qed.

Example gnu_receiver_cmd_str :
  receiver_cmd_str (GnuTarAdapter "g") = "gtar --no-same-owner --extract --verbose".
Proof. reflexivity. Qed.

(** C8. Each adapter variant has exactly the argument lists and the probe
    test of the variant table: GNU extracts with
    [--no-same-owner --extract --verbose], creates with
    [--create <path> --to-stdout --ignore-failed-read] and matches the
    outputs in which "GNU tar" occurs; BSD extracts with [-o -x -v],
    creates with [-c -f - <path>] and matches "bsdtar"; BusyBox extracts
    with [x -v], creates with [c -f - <path>] and matches "busybox"; an
    output in which none of the three texts occurs matches no variant. *)
Theorem adapter_variant_table (prefix path output : string) :
  (receiver_options (GnuTarAdapter prefix)
     = ["--no-same-owner"; "--extract"; "--verbose"]
   /\ sender_options (GnuTarAdapter prefix) path
     = ["--create"; path; "--to-stdout"; "--ignore-failed-read"]
   /\ (match_flavor_output (GnuTarAdapter prefix) output = true
       <-> Occurs "GNU tar" output))
  /\ (receiver_options BsdTarAdapter = ["-o"; "-x"; "-v"]
      /\ sender_options BsdTarAdapter path = ["-c"; "-f"; "-"; path]
      /\ (match_flavor_output BsdTarAdapter output = true
          <-> Occurs "bsdtar" output))
  /\ (receiver_options BusyBoxTarAdapter = ["x"; "-v"]
      /\ sender_options BusyBoxTarAdapter path = ["c"; "-f"; "-"; path]
      /\ (match_flavor_output BusyBoxTarAdapter output = true
          <-> Occurs "busybox" output))
  /\ (~ Occurs "GNU tar" output -> ~ Occurs "bsdtar" output ->
      ~ Occurs "busybox" output ->
      forall a, match_flavor_output a output = false).
Proof.
  repeat split; try reflexivity;
    try (simpl; apply str_in_Occurs); try (apply str_in_Occurs).
  intros Hg Hb Hx a.
  destruct a; simpl; apply str_in_not_Occurs; assumption.
Qed.

(** The unknown tar of the test suite matches no variant. *)
Lemma adapter_variant_table_witness :
  match_flavor_output (GnuTarAdapter "") "Some Unknown tar v.1.0" = false
  /\ match_flavor_output BsdTarAdapter "Some Unknown tar v.1.0" = false
  /\ match_flavor_output BusyBoxTarAdapter "Some Unknown tar v.1.0" = false.
Proof.
  pose proof (adapter_variant_table "" "foo" "Some Unknown tar v.1.0")
    as (_ & _ & _ & H).
  assert (Hn : forall a, match_flavor_output a "Some Unknown tar v.1.0" = false).
  { apply H; apply str_in_not_Occurs; reflexivity. }
  repeat split; apply Hn.
Defined.

End Adapters.

(** ** Detection *)

Section Detection.
Import tar_adapter.

Variable local_exec : list string -> subprocess.outcome.
Variable remote_exec : list string -> string -> subprocess.outcome.
Variable str_exn : exn -> string.

Local Abbreviation passed := (local_passed_over local_exec).
Local Abbreviation accepted := (local_accepted local_exec).

(** One round of the local loop, by the three things a probe can do. *)
Lemma local_probe_cases (t : TarAdapter) :
  passed t \/ accepted t \/ exists e, local_probe_raises local_exec t e.
Proof.
  unfold local_accepted, local_passed_over, local_skipped, local_tested,
    local_probe_raises.
  destruct (local_probe local_exec t) as [| |cp|cp] eqn:E; auto.
  - right; right. exists OSError. auto.
  - destruct (Z.eq_dec (subprocess.returncode cp) 0) as [Hz|Hz].
    + destruct (match_flavor_output t (subprocess.stdout cp)) eqn:Em.
      * right; left. eauto.
      * left; right. eauto.
    + left; left; right. eauto.
  - right; right. exists UnicodeDecodeError. right. eauto.
Qed.

Lemma local_loop_passed (t : TarAdapter) (rest : list TarAdapter) :
  passed t ->
  detect_local_loop local_exec (t :: rest) = detect_local_loop local_exec rest.
Proof.
  unfold local_passed_over, local_skipped, local_tested, local_probe.
  intros [[H|(cp & H & Hrc)]|(cp & H & Hrc & Hm)];
    cbn [detect_local_loop]; rewrite H;
    unfold subprocess.run, subprocess.checked.
  - reflexivity.
  - apply Z.eqb_neq in Hrc. rewrite Hrc. reflexivity.
  - rewrite Hrc. cbn. rewrite Hm. reflexivity.
Qed.

Lemma local_loop_accepted (t : TarAdapter) (rest : list TarAdapter) :
  accepted t -> detect_local_loop local_exec (t :: rest) = Ok (Some t).
Proof.
  unfold local_accepted, local_tested, local_probe.
  intros (cp & H & Hrc & Hm); cbn [detect_local_loop]; rewrite H.
  unfold subprocess.run, subprocess.checked. rewrite Hrc. cbn. rewrite Hm.
  reflexivity.
Qed.

Lemma local_loop_probe_raises (t : TarAdapter) (rest : list TarAdapter)
    (e : exn) :
  local_probe_raises local_exec t e ->
  detect_local_loop local_exec (t :: rest) = Raise e.
Proof.
  unfold local_probe_raises, local_probe.
  intros [[H ->]|[[cp H] ->]]; cbn [detect_local_loop]; rewrite H;
    reflexivity.
Qed.

Lemma local_probe_exclusive (t : TarAdapter) (e : exn) :
  local_probe_raises local_exec t e -> ~ passed t /\ ~ accepted t.
Proof.
  unfold local_probe_raises, local_passed_over, local_accepted, local_skipped,
    local_tested.
  intros [[H _]|[[cp H] _]]; split;
    try (intros [[Hp|(cp' & Hp & _)]|(cp' & Hp & _)]; congruence);
    intros (cp' & Hp & _); congruence.
Qed.

Lemma local_loop_some (l : list TarAdapter) (t : TarAdapter) :
  detect_local_loop local_exec l = Ok (Some t) <->
  exists pre post, l = (pre ++ t :: post)%list /\ Forall passed pre /\ accepted t.
Proof.
  split.
  - induction l as [|c l IH]; [discriminate|].
    destruct (local_probe_cases c) as [Hc|[Hc|Hc]].
    + rewrite (local_loop_passed l Hc). intros H.
      destruct (IH H) as (pre & post & -> & Hpre & Ht).
      exists (c :: pre), post. auto.
    + rewrite (local_loop_accepted l Hc). intros H; injection H as <-.
      exists [], l. auto.
    + destruct Hc as [e Hc]. rewrite (local_loop_probe_raises l Hc).
      discriminate.
  - intros (pre & post & -> & Hpre & Ht).
    induction Hpre as [|c pre Hc _ IH]; simpl app.
    + apply local_loop_accepted, Ht.
    + rewrite (local_loop_passed _ Hc). exact IH.
Qed.

Lemma local_loop_none (l : list TarAdapter) :
  detect_local_loop local_exec l = Ok None <-> Forall passed l.
Proof.
  induction l as [|c l IH]; [split; auto|].
  destruct (local_probe_cases c) as [Hc|[Hc|Hc]].
  - rewrite (local_loop_passed l Hc), IH. split; [auto|].
    intros H; inversion H; assumption.
  - rewrite (local_loop_accepted l Hc). split; [discriminate|].
    intros H; inversion H as [|? ? Hp _]; subst.
    destruct Hp as [[Hp|(cp & Hp & Hrc)]|(cp & Hp & _ & Hm)];
      destruct Hc as (cp' & Hc & Hrc' & Hm'); unfold local_probe in *;
      rewrite Hp in Hc;
      try discriminate; injection Hc as <-; congruence.
  - destruct Hc as [e Hc]. rewrite (local_loop_probe_raises l Hc).
    split; [discriminate|].
    intros H; inversion H as [|? ? Hp _]; subst.
    destruct (local_probe_exclusive Hc) as [Hn _]. contradiction.
Qed.

Lemma local_loop_raises_at (pre post : list TarAdapter) (t : TarAdapter)
    (e : exn) :
  Forall passed pre -> local_probe_raises local_exec t e ->
  detect_local_loop local_exec (pre ++ t :: post) = Raise e.
Proof.
  intros Hpre Ht. induction Hpre as [|c pre Hc _ IH]; simpl app.
  - apply local_loop_probe_raises, Ht.
  - rewrite (local_loop_passed _ Hc). exact IH.
Qed.

(** C6, as the code has it. [detect_local_tar] goes through the candidates
    in order: the result is candidate [t] exactly when [t] stands in the
    list after candidates that were all passed over (probe binary missing,
    nonzero exit, or status zero and the candidate's test of the captured
    output false) and [t]'s own probe exited with status zero with an
    output its test accepts; the result is [None] exactly when every
    candidate was passed over; and a probe that fails in another way (it
    cannot be launched for another reason than a missing binary, or its
    output cannot be decoded) is not skipped: when it is the probe of the
    first candidate not passed over, the detection ends with its exception,
    whatever the later candidates would give. *)
Theorem detect_local_tar_first_match (acceptable : option (list TarAdapter)) :
  let candidates := or_default acceptable default_local in
  (forall t,
      detect_local_tar local_exec acceptable = Ok (Some t) <->
      exists pre post,
        candidates = (pre ++ t :: post)%list
        /\ Forall (local_passed_over local_exec) pre
        /\ local_accepted local_exec t)
  /\ (detect_local_tar local_exec acceptable = Ok None <->
      Forall (local_passed_over local_exec) candidates)
  /\ (forall pre t post e,
        candidates = (pre ++ t :: post)%list ->
        Forall (local_passed_over local_exec) pre ->
        local_probe_raises local_exec t e ->
        detect_local_tar local_exec acceptable = Raise e).
Proof.
  intros candidates. split; [|split].
  - intros t. apply local_loop_some.
  - apply local_loop_none.
  - intros pre t post e E Hpre Ht. unfold detect_local_tar.
    fold candidates. rewrite E. apply local_loop_raises_at; assumption.
Qed.

(** The first candidate is missing, the second is GNU tar under the name
    [gtar]. *)
Example detect_local_tar_gtar :
  detect_local_tar
    (fun argv =>
       match argv with
       | "gtar" :: _ =>
           subprocess.Exited
             {| subprocess.returncode := 0;
                subprocess.stdout := "tar (GNU tar) 1.31";
                subprocess.stderr := "" |}
       | _ => subprocess.NoSuchFile
       end) None
  = Ok (Some (GnuTarAdapter "g")).
Proof. reflexivity. Qed.

(** The first candidate exits with status 1 although it prints the GNU
    text, the second is missing, the third is bsdtar. *)
Example detect_local_tar_skips_nonzero_exit :
  detect_local_tar
    (fun argv =>
       match argv with
       | "tar" :: _ => gnu_text_exit_1
       | _ => subprocess.NoSuchFile
       end) (Some [GnuTarAdapter ""; GnuTarAdapter "g"; BsdTarAdapter])
  = Ok None
  /\ detect_local_tar
       (fun argv =>
          match argv with
          | "gtar" :: _ => gnu_text_exit_1
          | "tar" :: _ => bsd_text_exit_0
          | _ => subprocess.NoSuchFile
          end) (Some [GnuTarAdapter "g"; GnuTarAdapter "zz"; BsdTarAdapter])
     = Ok (Some BsdTarAdapter).
Proof. split; reflexivity. Qed.

(** *** The remote detector *)

Variable connection_command : list string.

Local Abbreviation rpassed := (remote_passed_over remote_exec connection_command).
Local Abbreviation raccepted := (remote_accepted remote_exec connection_command).
Local Abbreviation rfails := (remote_launch_fails remote_exec connection_command).
Local Abbreviation remote_loop :=
  (detect_remote_loop remote_exec str_exn connection_command).

Lemma remote_probe_cases (t : TarAdapter) :
  rpassed t \/ raccepted t \/ rfails t
  \/ remote_undecodable remote_exec connection_command t.
Proof.
  unfold remote_passed_over, remote_accepted, remote_tested,
    remote_launch_fails, remote_undecodable.
  destruct (remote_probe remote_exec connection_command t) as [| |cp|cp] eqn:E;
    auto.
  - destruct (match_flavor_output t (subprocess.stdout cp)) eqn:Em; eauto.
  - right; right; right. eauto.
Qed.

Lemma remote_loop_tested (t : TarAdapter) (rest : list TarAdapter) (verdict : bool) :
  remote_tested remote_exec connection_command t verdict ->
  remote_loop (t :: rest) = if verdict then Ok (Some t) else remote_loop rest.
Proof.
  unfold remote_tested, remote_probe.
  intros (cp & H & Hm). cbn [detect_remote_loop]. rewrite H.
  unfold subprocess.run, subprocess.checked. cbn. rewrite Hm. reflexivity.
Qed.

Lemma remote_loop_undecodable (t : TarAdapter) (rest : list TarAdapter) :
  remote_undecodable remote_exec connection_command t ->
  remote_loop (t :: rest) = Raise UnicodeDecodeError.
Proof.
  unfold remote_undecodable, remote_probe.
  intros [cp H]. cbn [detect_remote_loop]. rewrite H. reflexivity.
Qed.

Lemma remote_loop_fails (t : TarAdapter) (rest : list TarAdapter) :
  rfails t ->
  remote_loop (t :: rest)
    = Raise (RuntimeError ("Error using connection command: "
                           ++ str_exn FileNotFoundError))
  \/ remote_loop (t :: rest) = Raise OSError.
Proof.
  unfold remote_launch_fails, remote_probe.
  intros [H|H]; cbn [detect_remote_loop]; rewrite H; [left|right]; reflexivity.
Qed.


Lemma remote_loop_some (l : list TarAdapter) (t : TarAdapter) :
  remote_loop l = Ok (Some t) <->
  exists pre post, l = (pre ++ t :: post)%list /\ Forall rpassed pre /\ raccepted t.
Proof.
  split.
  - induction l as [|c l IH]; [discriminate|].
    destruct (remote_probe_cases c) as [Hc|[Hc|[Hc|Hc]]].
    + rewrite (remote_loop_tested l Hc). intros H.
      destruct (IH H) as (pre & post & -> & Hpre & Ht).
      exists (c :: pre), post. auto.
    + rewrite (remote_loop_tested l Hc). intros H; injection H as <-.
      exists [], l. auto.
    + destruct (remote_loop_fails l Hc) as [E|E]; rewrite E; discriminate.
    + rewrite (remote_loop_undecodable l Hc). discriminate.
  - intros (pre & post & -> & Hpre & Ht).
    induction Hpre as [|c pre Hc _ IH]; simpl app.
    + apply (remote_loop_tested post Ht).
    + rewrite (remote_loop_tested _ Hc). exact IH.
Qed.




End Detection.

Section DetectionExamples.
Import tar_adapter.

(** The third part of C6 at concrete machines: a [tar] that cannot be
    executed, and a [tar] whose output cannot be decoded, end the detection
    with their exception. *)
Lemma detect_local_tar_first_match_witness :
  detect_local_tar tar_not_executable None = Raise OSError
  /\ detect_local_tar tar_prints_garbage None = Raise UnicodeDecodeError.
Proof.
  split.
  - apply (proj2 (proj2 (detect_local_tar_first_match tar_not_executable None))
             [] (GnuTarAdapter "")
             [GnuTarAdapter "g"; BsdTarAdapter; BusyBoxTarAdapter] OSError).
    + reflexivity.
    + constructor.
    + left. split; reflexivity.
  - apply (proj2 (proj2 (detect_local_tar_first_match tar_prints_garbage None))
             [] (GnuTarAdapter "")
             [GnuTarAdapter "g"; BsdTarAdapter; BusyBoxTarAdapter]
             UnicodeDecodeError).
    + reflexivity.
    + constructor.
    + right. split; [eexists|]; reflexivity.
Defined.

(** C6 as stated fails. On a machine with bsdtar as [tar] and a [gtar]
    that cannot be executed, the first candidate whose test holds is
    [BsdTarAdapter] (the GNU candidate named [tar] is tested false, the
    probe of [gtar] fails, though not for a missing binary nor with a
    nonzero exit), yet the candidate is not returned: the detection raises.
    And on a machine whose [tar] cannot be executed no candidate matches,
    yet the result is not [None]. *)
Lemma detect_local_tar_launch_failure_not_skipped :
  (local_probe gtar_not_executable (GnuTarAdapter "") = bsd_text_exit_0
   /\ match_flavor_output (GnuTarAdapter "")
        "bsdtar 2.8.3 - libarchive 2.8.3" = false
   /\ local_probe gtar_not_executable (GnuTarAdapter "g")
      = subprocess.LaunchFailed
   /\ local_probe gtar_not_executable BsdTarAdapter = bsd_text_exit_0
   /\ match_flavor_output BsdTarAdapter "bsdtar 2.8.3 - libarchive 2.8.3" = true
   /\ detect_local_tar gtar_not_executable None = Raise OSError)
  /\ detect_local_tar tar_not_executable None = Raise OSError.
Proof. repeat split. Qed.



End DetectionExamples.

(** ** The session's [copy_file] *)

Section CopyFile.
Import tar_adapter lib.

Variable getcwd : string.
Variable tar_exec : list string -> string -> list action -> subprocess.outcome.

Lemma normpath_nonempty (path : string) : posixpath.normpath path <> "".
Proof.
  unfold posixpath.normpath.
  destruct (String.eqb path ""); [discriminate|].
  match goal with
  | |- (if String.eqb ?p "" then _ else _) <> _ =>
      destruct (String.eqb_spec p ""); [discriminate|assumption]
  end.
Qed.

Lemma abspath_nonempty (path : string) : posixpath.abspath getcwd path <> "".
Proof.
  unfold posixpath.abspath.
  destruct (posixpath.isabs path); apply normpath_nonempty.
Qed.

(** [relpath] of an absolute path does not raise. *)
Lemma relpath_abspath_ok (path start : string) :
  exists rel,
    posixpath.relpath getcwd (posixpath.abspath getcwd path) start = Ok rel.
Proof.
  unfold posixpath.relpath.
  destruct (String.eqb_spec (posixpath.abspath getcwd path) "") as [E|_].
  - now apply abspath_nonempty in E.
  - match goal with |- exists _, match ?l with _ => _ end = _ => destruct l end;
      eauto.
Qed.

Lemma decode_inv (b text : string) :
  utf8.decode b = Ok text -> utf8.valid b = true /\ text = b.
Proof.
  unfold utf8.decode. destruct (utf8.valid b); [|discriminate].
  intros H; injection H as <-. auto.
Qed.

(** X3. What [copy_file] does with a diagnostic. When the sender command
    runs and exits with status zero, and its diagnostic is well-formed
    UTF-8 in which "No such file or directory" occurs, [copy_file] returns
    normally, having done nothing but run the sender and flush (the
    diagnostic is not surfaced).  When the sender writes a non-empty
    diagnostic in which that text does not occur, [copy_file] raises. *)
Theorem copy_file_diagnostics (s : Session) (t : TarAdapter)
    (src_filename rel : string) (w : world) (cp : subprocess.CompletedProcess) :
  local_tar s = Some t ->
  posixpath.relpath getcwd (posixpath.abspath getcwd src_filename) (src_dir s)
    = Ok rel ->
  tar_exec (sender_cmd t rel) (src_dir s)
    (trace (announced getcwd s src_filename w)) = subprocess.Exited cp ->
  (subprocess.returncode cp = 0%Z ->
   utf8.valid (subprocess.stderr cp) = true ->
   Occurs not_found_text (subprocess.stderr cp) ->
   copy_file getcwd tar_exec s src_filename w
     = (Ok tt,
        log StdinFlush
          (log (Run (sender_cmd t rel) (src_dir s))
             (announced getcwd s src_filename w))))
  /\ (subprocess.stderr cp <> "" ->
      ~ Occurs not_found_text (subprocess.stderr cp) ->
      raises (fst (copy_file getcwd tar_exec s src_filename w))).
Proof.
  intros Ht Hrel Hrun.
  assert (Hstep : copy_file getcwd tar_exec s src_filename w =
    match subprocess.run (sender_cmd t rel) true false (subprocess.Exited cp) with
    | Ok result =>
        ((if negb (String.eqb (subprocess.stderr result) "") then
            text <- lift (utf8.decode (subprocess.stderr result)) ;;
            if str_in not_found_text text then ret tt
            else
              text' <- lift (utf8.decode (subprocess.stderr result)) ;;
              raise (RuntimeError ("ERROR: " ++ text'))
          else ret tt) ;;; emit StdinFlush)
          (log (Run (sender_cmd t rel) (src_dir s))
             (announced getcwd s src_filename w))
    | Raise e =>
        (Raise e, log (Run (sender_cmd t rel) (src_dir s))
                    (announced getcwd s src_filename w))
    end).
  { unfold copy_file, announced in *. unfold bind at 1, lift at 1.
    rewrite Hrel. unfold bind at 1.
    destruct (debugging s); cbn [when emit ret]; rewrite Ht;
      unfold bind at 1; cbn [ret]; unfold bind at 1, run_sender;
      rewrite Hrun; destruct (subprocess.run _ _ _ _); reflexivity. }
  rewrite Hstep. unfold subprocess.run, subprocess.checked. cbn [andb]. split.
  - intros Hrc Hvalid Hocc. rewrite Hrc. cbn [Z.eqb negb].
    apply str_in_Occurs in Hocc.
    destruct (String.eqb_spec (subprocess.stderr cp) "") as [E|_]; cbn [negb].
    + reflexivity.
    + unfold bind, lift, utf8.decode. rewrite Hvalid, Hocc. reflexivity.
  - intros Hne Hnocc. apply str_in_not_Occurs in Hnocc.
    destruct (subprocess.returncode cp =? 0)%Z; cbn [negb].
    + destruct (String.eqb_spec (subprocess.stderr cp) "") as [E|_];
        [contradiction|]. cbn [negb].
      unfold bind, lift, utf8.decode.
      destruct (utf8.valid (subprocess.stderr cp)).
      * rewrite Hnocc. eexists; reflexivity.
      * eexists; reflexivity.
    + eexists; reflexivity.
Qed.

End CopyFile.

Section CopyFileExamples.
Import tar_adapter lib.

(** The two parts at concrete runs of GNU tar: the vanished-file warning
    with status zero is swallowed, a permission diagnostic raises. *)
Lemma copy_file_diagnostics_witness :
  copy_file "/" (sender_exits 0 gnu_vanished) gnu_session "/home/u/test/a.txt" world0
    = (Ok tt,
       {| trace := [Run ["tar"; "--create"; "a.txt"; "--to-stdout";
                         "--ignore-failed-read"] "/home/u/test";
                    StdinFlush];
          last_event_timestamp := 0%float |})
  /\ raises (fst (copy_file "/" (sender_exits 0 denied) gnu_session
                    "/home/u/test/a.txt" world0)).
Proof.
  split.
  - apply (proj1 (@copy_file_diagnostics "/" (sender_exits 0 gnu_vanished)
             gnu_session (GnuTarAdapter "") "/home/u/test/a.txt" "a.txt" world0
             _ eq_refl eq_refl eq_refl)).
    + reflexivity.
    + reflexivity.
    + apply str_in_Occurs. reflexivity.
  - apply (proj2 (@copy_file_diagnostics "/" (sender_exits 0 denied)
             gnu_session (GnuTarAdapter "") "/home/u/test/a.txt" "a.txt" world0
             _ eq_refl eq_refl eq_refl)).
    + discriminate.
    + apply str_in_not_Occurs. reflexivity.
Defined.

(** C1 at the failing input. The file has vanished between discovery and
    send.  BSD tar, which has no [--ignore-failed-read], reports it with
    "No such file or directory" and exits with status 1; [subprocess.run]
    is called with [check=True], so [copy_file] raises
    [CalledProcessError] before it reaches the test that is there to
    swallow this report.  Likewise a vanished-file report that is not
    well-formed UTF-8 (a Latin-1 file name) makes [copy_file] raise
    [UnicodeDecodeError], with status zero. *)
Lemma copy_file_raises_on_vanished_file :
  (Occurs not_found_text bsd_vanished
   /\ fst (copy_file "/" (sender_exits 1 bsd_vanished) bsd_session
             "/home/u/test/a.txt" world0)
      = Raise (CalledProcessError 1 ["tar"; "-c"; "-f"; "-"; "a.txt"]))
  /\ (Occurs not_found_text latin1_vanished
      /\ fst (copy_file "/" (sender_exits 0 latin1_vanished) gnu_session
                "/home/u/test/a.txt" world0)
         = Raise UnicodeDecodeError).
Proof.
  repeat split; try (apply str_in_Occurs; reflexivity).
Qed.

End CopyFileExamples.

(** ** Calls of [copy_file] *)

Section Calls.

Lemma copy_calls_app (l1 l2 : list action) :
  copy_calls (l1 ++ l2) = (copy_calls l1 ++ copy_calls l2)%list.
Proof. apply flat_map_app. Qed.

Lemma copy_calls_log (a : action) (w : world) :
  copy_calls (trace (log a w))
  = (copy_calls (trace w)
     ++ match a with CopyFile p => [p] | _ => [] end)%list.
Proof.
  unfold log; cbn [trace]. rewrite copy_calls_app. cbn.
  now rewrite app_nil_r.
Qed.

Lemma copy_calls_callable (outcome : string -> list action -> result unit)
    (path : string) (w : world) :
  copy_calls (trace (snd (callable outcome path w)))
  = (copy_calls (trace w) ++ [path])%list.
Proof. unfold callable; cbn [snd]. apply copy_calls_log. Qed.

End Calls.

(** ** The event handlers *)

Section Handlers.
Import events lib.

Variable PathSpec : Type.
Variable match_file : PathSpec -> string -> bool.
Variable clock : list action -> float.
Variable str_key : FileSystemEvent -> string.
Variable outcome : string -> list action -> result unit.

Local Abbreviation handler := (@watch_handler PathSpec).
Local Abbreviation run_dispatch spec debugging event w :=
  (dispatch match_file clock str_key (handler spec outcome debugging) event w).
Local Abbreviation noted := (noted clock str_key).

Lemma copy_calls_noted debugging event w :
  copy_calls (trace (noted debugging event w)) = copy_calls (trace w).
Proof.
  unfold noted. destruct debugging; cbn [trace set_last_event_timestamp].
  - rewrite copy_calls_log. cbn [set_last_event_timestamp trace].
    rewrite copy_calls_log. now rewrite !app_nil_r.
  - rewrite copy_calls_log. now rewrite app_nil_r.
Qed.

(** [on_any_event] by the class of the event. *)
Lemma on_any_event_cases spec debugging event w :
  on_any_event clock str_key (handler spec outcome debugging) event w =
  match class event with
  | Deleted => (Ok tt, noted debugging event w)
  | Modified =>
      if is_directory event then (Ok tt, noted debugging event w)
      else callable outcome (src_path event) (noted debugging event w)
  | Moved d => callable outcome d (noted debugging event w)
  | Created => callable outcome (src_path event) (noted debugging event w)
  end.
Proof.
  unfold on_any_event, noted, event_type, dest_path, touch, time_time.
  destruct spec, debugging, event as [[d| | |] [|] src]; reflexivity.
Qed.

Lemma dispatch_not_dropped spec debugging event w :
  dropped match_file spec event = false ->
  run_dispatch spec debugging event w
  = on_any_event clock str_key (handler spec outcome debugging) event w.
Proof.
  unfold dropped, ignored, watch_handler, dispatch.
  destruct spec as [sp|]; [|reflexivity].
  intros H. apply orb_false_iff in H as [H1 H2]. rewrite H1.
  destruct (dest_path event); [rewrite H2|]; reflexivity.
Qed.

(** A dropped event: nothing is done but an optional debugging line. *)
Lemma dispatch_dropped sp debugging event w :
  ignored match_file sp event = true ->
  fst (run_dispatch (Some sp) debugging event w) = Ok tt
  /\ copy_calls (trace (snd (run_dispatch (Some sp) debugging event w)))
     = copy_calls (trace w).
Proof.
  unfold ignored, watch_handler, dispatch.
  intros H.
  destruct (negb (String.eqb (src_path event) "")
            && match_file sp (src_path event)).
  - destruct debugging; cbn; [rewrite copy_calls_app, app_nil_r|]; auto.
  - cbn [orb] in H. destruct (dest_path event) as [d|]; [|discriminate].
    rewrite H.
    destruct debugging; cbn; [rewrite copy_calls_app, app_nil_r|]; auto.
Qed.

(** C3. For an event delivered to the handler of the watch phase and not
    dropped by the ignore matcher: a deleted event makes no call of
    [copy_file]; a modified event on a directory makes none; a moved event
    makes exactly one, on the destination path; a created event, and a
    modified event on a non-directory, make exactly one, on the source
    path. *)
Theorem dispatch_classification (spec : option PathSpec) (debugging : bool)
    (event : FileSystemEvent) (w : world) :
  dropped match_file spec event = false ->
  let calls_before := copy_calls (trace w) in
  let calls_after :=
    copy_calls (trace (snd (dispatch match_file clock str_key
                              (watch_handler spec outcome debugging) event w))) in
  (event_type event = "deleted" -> calls_after = calls_before)
  /\ (event_type event = "modified" -> is_directory event = true ->
      calls_after = calls_before)
  /\ (event_type event = "moved" ->
      exists d, dest_path event = Some d
                /\ calls_after = (calls_before ++ [d])%list)
  /\ (event_type event = "created"
      \/ (event_type event = "modified" /\ is_directory event = false) ->
      calls_after = (calls_before ++ [src_path event])%list).
Proof.
  intros Hd calls_before calls_after. subst calls_before calls_after.
  pose proof (dispatch_not_dropped spec debugging event w Hd) as E.
  rewrite E, on_any_event_cases.
  unfold event_type, dest_path.
  destruct event as [[d| | |] dir src]; cbn [class is_directory src_path];
    repeat split; try discriminate; intros;
    repeat match goal with
           | H : _ \/ _ |- _ => destruct H
           | H : _ /\ _ |- _ => destruct H
           end;
    try discriminate; subst;
    try (eexists; split; [reflexivity|]);
    cbn [snd]; rewrite ?copy_calls_callable, ?copy_calls_noted; reflexivity.
Qed.

End Handlers.

Section HandlerExamples.
Import events lib.

(** C3 at a rename that the ignore rule does not match: one call, on the
    destination. *)
Lemma dispatch_classification_witness :
  copy_calls (trace (snd (dispatch anchored_build frozen_clock no_key
                            (watch_handler (Some tt) always_ok false)
                            renamed world0)))
  = ["/home/u/test/b.txt"].
Proof.
  destruct (@dispatch_classification unit anchored_build frozen_clock no_key
              always_ok (Some tt) false renamed world0 eq_refl)
    as (_ & _ & Hmoved & _).
  destruct (Hmoved eq_refl) as (d & Hd & Hcalls).
  injection Hd as <-. exact Hcalls.
Defined.

(** C5 at the failing input. The source root is [/home/u/test] and the one
    ignore rule matches the paths below [build/] relative to it.  The
    created file's path relative to the source root is [build/out.o], which
    the matcher matches; the handler gives the matcher the path as the
    event carries it, the matcher does not match that, and the file is
    copied. *)
Lemma dispatch_tests_path_as_delivered :
  posixpath.relpath "/" (src_path build_output_created) "/home/u/test"
    = Ok "build/out.o"
  /\ anchored_build tt "build/out.o" = true
  /\ dispatch anchored_build frozen_clock no_key
       (watch_handler (Some tt) always_ok false) build_output_created world0
     = (Ok tt,
        {| trace := [TimeTime; CopyFile "/home/u/test/build/out.o"];
           last_event_timestamp := 0%float |}).
Proof. repeat split. Qed.

End HandlerExamples.

(** ** Bulk replication *)

Section Bulk.
Import lib.

Variable PathSpec : Type.
Variable from_lines : list string -> PathSpec.
Variable match_file : PathSpec -> string -> bool.
Variable isfile : string -> bool.
Variable readlines : string -> list string.
Variable iter_tree : string -> list string.
Variable outcome : string -> list action -> result unit.

Lemma bulk_loop_calls (spec : PathSpec) (src_dir : string) (files : list string) :
  forall w,
    let run :=
      for_each files (fun filename =>
        if negb (match_file spec filename)
        then callable outcome (posixpath.join src_dir filename)
        else ret tt) w in
    exists done rest,
      to_copy match_file spec src_dir files = (done ++ rest)%list
      /\ copy_calls (trace (snd run)) = (copy_calls (trace w) ++ done)%list
      /\ (fst run = Ok tt -> rest = []).
Proof.
  induction files as [|f files IH]; intros w run; subst run.
  - exists [], []. cbn. rewrite app_nil_r. auto.
  - set (body := fun filename : string =>
        if negb (match_file spec filename)
        then callable outcome (posixpath.join src_dir filename)
        else ret tt) in *.
    set (p := posixpath.join src_dir f).
    change (for_each (f :: files) body w)
      with (match body f w with
            | (Ok _, w') => for_each files body w'
            | (Raise e, w') => (Raise e, w')
            end).
    assert (Hb : body f w = if negb (match_file spec f)
                            then callable outcome p w else (Ok tt, w))
      by (unfold body; destruct (negb (match_file spec f)); reflexivity).
    rewrite Hb.
    assert (Ht : to_copy match_file spec src_dir (f :: files)
                 = if negb (match_file spec f)
                   then p :: to_copy match_file spec src_dir files
                   else to_copy match_file spec src_dir files)
      by (unfold to_copy; cbn [filter];
          destruct (negb (match_file spec f)); reflexivity).
    rewrite Ht.
    destruct (negb (match_file spec f)) eqn:Em.
    + destruct (callable outcome p w) as [r w1] eqn:Ec.
      assert (Hw1 : copy_calls (trace w1) = (copy_calls (trace w) ++ [p])%list).
      { replace w1 with (snd (callable outcome p w)) by (rewrite Ec; reflexivity).
        apply copy_calls_callable. }
      destruct r as [[]|e].
      * destruct (IH w1) as (done & rest & E & Hc & Hok).
        exists (p :: done), rest. split; [|split].
        -- now rewrite E.
        -- fold body in Hc. rewrite Hc, Hw1, <- app_assoc. reflexivity.
        -- exact Hok.
      * exists [p], (to_copy match_file spec src_dir files).
        cbn [fst snd]. repeat split; auto. discriminate.
    + apply IH.
Qed.

(** C4. Bulk replication calls [copy_file] on the discovered files whose
    path relative to the source directory the matcher does not match, in
    the order of the traversal, each joined to the source directory: the
    calls made are always an initial part of that list, hence never a path
    the matcher matches, and they are the whole list when the run returns
    normally (a call of [copy_file] that raises ends the run). *)
Theorem replicate_all_files_calls (src_dir : string)
    (use_gitignore debugging : bool) (w : world) :
  let spec := get_pathspec from_lines isfile readlines src_dir use_gitignore in
  let expected := to_copy match_file spec src_dir (iter_tree src_dir) in
  let run :=
    replicate_all_files from_lines match_file isfile readlines iter_tree
      src_dir (callable outcome) use_gitignore debugging w in
  exists done rest,
    expected = (done ++ rest)%list
    /\ copy_calls (trace (snd run)) = (copy_calls (trace w) ++ done)%list
    /\ (fst run = Ok tt -> rest = [])
    /\ (forall p, In p done ->
          exists filename,
            In filename (iter_tree src_dir)
            /\ match_file spec filename = false
            /\ p = posixpath.join src_dir filename).
Proof.
  intros spec expected run.
  destruct (bulk_loop_calls spec src_dir (iter_tree src_dir) w)
    as (done & rest & E & Hc & Hok).
  exists done, rest. repeat split; auto.
  intros p Hp.
  assert (Hin : In p expected)
    by (unfold expected; rewrite E; apply in_or_app; auto).
  unfold expected, to_copy in Hin.
  apply in_map_iff in Hin as (f & <- & Hf).
  apply filter_In in Hf as [Hf Hm].
  exists f. repeat split; auto. now apply negb_true_iff in Hm.
Qed.

End Bulk.

Section BulkExamples.
Import lib.

(** C4 on a tree of three files with the rule [*.pyc], every copy
    succeeding: the two other files are copied. *)
Lemma replicate_all_files_calls_witness :
  copy_calls (trace (snd (replicate_all_files (fun _ => tt) pyc_rule
                            (fun _ => false) (fun _ => []) small_tree
                            "/home/u/test" (callable always_ok) true false world0)))
  = ["/home/u/test/a.txt"; "/home/u/test/b/c.txt"].
Proof.
  destruct (@replicate_all_files_calls unit (fun _ => tt) pyc_rule
              (fun _ => false) (fun _ => []) small_tree always_ok
              "/home/u/test" true false world0)
    as (done & rest & E & Hc & Hok & _).
  rewrite Hc. rewrite (Hok eq_refl), app_nil_r in E.
  rewrite <- E. reflexivity.
Defined.

End BulkExamples.

(** ** The watch phase *)

Section WatchLoop.
Import lib.

Variable getcwd : string.
Variable PathSpec : Type.
Variable from_lines : list string -> PathSpec.
Variable isfile : string -> bool.
Variable readlines : string -> list string.
Variable clock : list action -> float.
Variable observed : nat -> float.
Variable now : nat -> float.
Variable interrupted : nat -> bool.

Local Abbreviation loop := (poll observed now interrupted).

Lemma trace_rounds (checked : bool) (n : nat) (w : world) :
  trace (rounds checked n w)
  = (trace w ++ List.concat (repeat (round_actions checked) n))%list.
Proof.
  revert w; induction n as [|n IH]; intros w; cbn [rounds repeat List.concat].
  - now rewrite app_nil_r.
  - rewrite IH, app_assoc. f_equal.
    unfold round, round_actions. destruct checked; cbn; now rewrite <- ?app_assoc.
Qed.

(** One round of the loop when the timeout is checked. *)
Lemma poll_checked (t : float) (fuel i : nat) (w : world) :
  truthy (Some t) = true ->
  loop (Some t) (S fuel) i w =
  if timed_out observed now t i
  then Some (NoChangeTimeoutError (PrimFloat.sub (now i) (observed i)),
             log TimeTime w)
  else if interrupted i then Some (KeyboardInterrupt, round true w)
  else loop (Some t) fuel (S i) (round true w).
Proof.
  intros Ht. cbn [poll]. rewrite Ht.
  unfold raise_if_timeout, timed_out, round.
  destruct (PrimFloat.ltb t (PrimFloat.sub (now i) (observed i))); reflexivity.
Qed.

(** One round of the loop when the timeout is falsy. *)
Lemma poll_unchecked (timeout : option float) (fuel i : nat) (w : world) :
  truthy timeout = false ->
  loop timeout (S fuel) i w =
  if interrupted i then Some (KeyboardInterrupt, round false w)
  else loop timeout fuel (S i) (round false w).
Proof.
  intros Ht. cbn [poll]. rewrite Ht.
  destruct timeout; reflexivity.
Qed.

(** The loop is left through the timeout in the first round in which the
    timeout has elapsed, if no interrupt comes before. *)
Lemma poll_times_out (t : float) (n : nat) :
  truthy (Some t) = true ->
  forall fuel i w,
    (forall j, j < n ->
       timed_out observed now t (i + j) = false /\ interrupted (i + j) = false) ->
    timed_out observed now t (i + n) = true ->
    n < fuel ->
    loop (Some t) fuel i w
    = Some (NoChangeTimeoutError
              (PrimFloat.sub (now (i + n)) (observed (i + n))),
            log TimeTime (rounds true n w)).
Proof.
  intros Ht. induction n as [|n IH]; intros fuel i w Hq Hn Hf.
  - destruct fuel as [|fuel]; [lia|].
    rewrite poll_checked by assumption.
    rewrite Nat.add_0_r in *. rewrite Hn. reflexivity.
  - destruct fuel as [|fuel]; [lia|].
    rewrite poll_checked by assumption.
    destruct (Hq 0 ltac:(lia)) as [Hq1 Hq2]. rewrite Nat.add_0_r in Hq1, Hq2.
    rewrite Hq1, Hq2.
    rewrite (IH fuel (S i) (round true w)).
    + replace (S i + n) with (i + S n) by lia. reflexivity.
    + intros j Hj. replace (S i + j) with (i + S j) by lia. apply Hq; lia.
    + replace (S i + n) with (i + S n) by lia. exact Hn.
    + lia.
Qed.

(** With a falsy timeout the loop is left by an interrupt only, and the
    clock is never read. *)
Lemma poll_falsy_exit (timeout : option float) :
  truthy timeout = false ->
  forall fuel i w e w',
    loop timeout fuel i w = Some (e, w') ->
    exists n,
      interrupted (i + n) = true
      /\ (forall j, j < n -> interrupted (i + j) = false)
      /\ e = KeyboardInterrupt
      /\ w' = rounds false (S n) w.
Proof.
  intros Ht. induction fuel as [|fuel IH]; intros i w e w' H.
  - discriminate.
  - rewrite poll_unchecked in H by assumption.
    destruct (interrupted i) eqn:Ei.
    + injection H as <- <-. exists 0. rewrite Nat.add_0_r.
      repeat split; auto. intros j Hj; lia.
    + destruct (IH _ _ _ _ H) as (n & Hn & Hq & He & Hw).
      exists (S n). replace (i + S n) with (S i + n) by lia.
      repeat split; auto.
      intros [|j] Hj; [now rewrite Nat.add_0_r|].
      replace (i + S j) with (S i + j) by lia. apply Hq; lia.
Qed.

Lemma poll_falsy_runs (timeout : option float) :
  truthy timeout = false ->
  (forall i, interrupted i = false) ->
  forall fuel i w, loop timeout fuel i w = None.
Proof.
  intros Ht Hq. induction fuel as [|fuel IH]; intros i w; [reflexivity|].
  rewrite poll_unchecked by assumption. rewrite Hq. apply IH.
Qed.

Local Abbreviation watch :=
  (replicate_files_on_change getcwd from_lines isfile readlines clock
     observed now interrupted).

(** [replicate_files_on_change] is its set-up, the loop, and the handling
    of the exception that ends the loop. *)
Lemma watch_unfold fuel src_dir copy_file timeout use_gitignore debugging w :
  watch fuel src_dir copy_file timeout use_gitignore debugging w =
  match loop timeout fuel 0
          (started clock (posixpath.abspath getcwd src_dir) debugging w) with
  | None => None
  | Some (e, w') =>
      match e with
      | KeyboardInterrupt | NoChangeTimeoutError _ =>
          Some (Ok tt,
                log ObserverJoin
                  (let w1 := log ObserverStop w' in
                   if debugging then log (Print "Exitting on {e}") w1 else w1))
      | _ => Some (Raise e, w')
      end
  end.
Proof.
  unfold replicate_files_on_change, bindD, liftD, started.
  destruct use_gitignore, debugging; cbn;
    match goal with
    | |- match ?x with _ => _ end = _ => destruct x as [[[] ?]|]; reflexivity
    end.
Qed.

Lemma trace_started src_dir debugging w :
  trace (started clock src_dir debugging w)
  = (trace w ++ setup_actions src_dir debugging)%list.
Proof.
  unfold started, setup_actions. destruct debugging; cbn;
    rewrite <- ?app_assoc; reflexivity.
Qed.

End WatchLoop.

Section Watch.
Import lib.

Variable getcwd : string.
Variable PathSpec : Type.
Variable from_lines : list string -> PathSpec.
Variable isfile : string -> bool.
Variable readlines : string -> list string.
Variable clock : list action -> float.
Variable observed : nat -> float.
Variable now : nat -> float.
Variable interrupted : nat -> bool.

(** C9, as the code has it. For a timeout that is neither [None] nor zero:
    when the timeout has elapsed in round [n] of the polling loop, no
    earlier round having seen it elapse or an interrupt,
    [replicate_files_on_change] returns normally (given fuel for more than
    [n] rounds), having polled [n] quiet rounds, read the clock once more,
    stopped the observer and joined it; the [NoChangeTimeoutError] does not
    reach the caller. *)
Theorem watch_returns_on_timeout (t : float) (n fuel : nat) (src_dir : string)
    (copy_file : string -> M unit) (use_gitignore debugging : bool) (w : world) :
  truthy (Some t) = true ->
  quiet_until observed now interrupted t n ->
  timed_out observed now t n = true ->
  n < fuel ->
  exists w',
    replicate_files_on_change getcwd from_lines isfile readlines clock
      observed now interrupted fuel src_dir copy_file (Some t) use_gitignore
      debugging w = Some (Ok tt, w')
    /\ trace w'
       = (trace w
          ++ setup_actions (posixpath.abspath getcwd src_dir) debugging
          ++ List.concat (repeat (round_actions true) n)
          ++ [TimeTime]
          ++ shutdown_actions debugging)%list.
Proof.
  intros Ht Hq Hn Hf. rewrite watch_unfold.
  rewrite (@poll_times_out observed now interrupted t n Ht fuel 0 _ Hq Hn Hf).
  eexists; split; [reflexivity|].
  unfold shutdown_actions.
  destruct debugging; cbn [log trace];
    rewrite trace_rounds, trace_started; rewrite <- ?app_assoc; reflexivity.
Qed.

Lemma poll_falsy_interrupt (timeout : option float) :
  truthy timeout = false ->
  forall n fuel i w,
    interrupted (i + n) = true ->
    (forall j, j < n -> interrupted (i + j) = false) ->
    n < fuel ->
    poll observed now interrupted timeout fuel i w
    = Some (KeyboardInterrupt, rounds false (S n) w).
Proof.
  intros Ht. induction n as [|n IH]; intros fuel i w Hn Hq Hf;
    (destruct fuel as [|fuel]; [lia|]); rewrite poll_unchecked by assumption.
  - rewrite Nat.add_0_r in Hn. rewrite Hn. reflexivity.
  - rewrite <- (Nat.add_0_r i) at 1. rewrite (Hq 0) by lia.
    apply IH; [| |lia].
    + now replace (S i + n) with (i + S n) by lia.
    + intros j Hj. replace (S i + j) with (i + S j) by lia. apply Hq; lia.
Qed.

(** C10. With a falsy timeout ([None] or zero) the timeout is never
    checked: whenever [replicate_files_on_change] returns, it is because
    the interrupt arrived, in some round [n] and in none before, and all it
    did in the loop was sleep [n + 1] times, the clock never being read
    there; if no interrupt ever arrives it does not return, whatever the
    fuel; and if the interrupt arrives in round [n] it returns normally. *)
Theorem watch_without_timeout (timeout : option float) (fuel : nat)
    (src_dir : string) (copy_file : string -> M unit)
    (use_gitignore debugging : bool) (w : world) :
  truthy timeout = false ->
  let run :=
    replicate_files_on_change getcwd from_lines isfile readlines clock
      observed now interrupted fuel src_dir copy_file timeout use_gitignore
      debugging w in
  (forall r w',
      run = Some (r, w') ->
      exists n,
        interrupted n = true
        /\ (forall j, j < n -> interrupted j = false)
        /\ r = Ok tt
        /\ trace w'
           = (trace w
              ++ setup_actions (posixpath.abspath getcwd src_dir) debugging
              ++ repeat Sleep (S n)
              ++ shutdown_actions debugging)%list)
  /\ ((forall i, interrupted i = false) -> run = None)
  /\ (forall n,
        interrupted n = true -> (forall j, j < n -> interrupted j = false) ->
        n < fuel -> exists w', run = Some (Ok tt, w')).
Proof.
  intros Ht run. subst run. rewrite watch_unfold.
  split; [|split].
  - intros r w' H.
    destruct (poll observed now interrupted timeout fuel 0 _) as [[e w1]|] eqn:E;
      [|discriminate].
    apply poll_falsy_exit in E as (n & Hn & Hq & -> & ->); [|exact Ht].
    exists n. cbn [Nat.add] in Hn, Hq. injection H as <- <-.
    repeat split; auto.
    assert (Hs : forall k, List.concat (repeat (round_actions false) k)
                           = repeat Sleep k)
      by (induction k as [|k IHk]; cbn; [|rewrite <- IHk]; reflexivity).
    unfold shutdown_actions.
    change (round false ?x) with (rounds false 1 x).
    destruct debugging; cbn [log trace];
      rewrite !trace_rounds, trace_started, !Hs; cbn; rewrite <- ?app_assoc;
      reflexivity.
  - intros Hq. now rewrite poll_falsy_runs.
  - intros n Hn Hq Hf.
    rewrite (@poll_falsy_interrupt timeout Ht n fuel 0 _ Hn Hq Hf).
    eexists; reflexivity.
Qed.

End Watch.

Section WatchExamples.
Import lib.

(** C9 with a timeout of two seconds that elapses in the third round. *)
Lemma watch_returns_on_timeout_witness :
  exists w',
    replicate_files_on_change "/" empty_spec no_file no_lines frozen_clock
      zero late nobody 3 "/home/u/test" no_copy (Some 2%float) true false world0
    = Some (Ok tt, w')
    /\ trace w'
       = [TimeTime; ObserverSchedule "/home/u/test" true; ObserverStart;
          TimeTime; Sleep; TimeTime; Sleep; TimeTime;
          ObserverStop; ObserverJoin].
Proof.
  apply (@watch_returns_on_timeout "/" unit empty_spec no_file no_lines
           frozen_clock zero late nobody 2%float 2 3 "/home/u/test" no_copy
           true false world0).
  - reflexivity.
  - intros [|[|i]] Hi; [split; reflexivity | split; reflexivity | lia].
  - reflexivity.
  - lia.
Defined.

(** C9 as stated fails for the timeout 0, which is not [None]: the timeout
    has elapsed in the first round already, and the function never
    returns. *)
Lemma watch_zero_timeout_never_returns :
  timed_out zero five 0%float 0 = true
  /\ ~ exists fuel r,
        replicate_files_on_change "/" empty_spec no_file no_lines frozen_clock
          zero five nobody fuel "/home/u/test" no_copy (Some 0%float) true
          false world0 = Some r.
Proof.
  split; [reflexivity|]. intros (fuel & r & H).
  rewrite watch_unfold in H.
  rewrite poll_falsy_runs in H; [discriminate|reflexivity|reflexivity].
Qed.

(** C10 at the timeouts zero and [None], without and with an interrupt. *)
Lemma watch_without_timeout_witness :
  replicate_files_on_change "/" empty_spec no_file no_lines frozen_clock
    zero five nobody 1000 "/home/u/test" no_copy (Some 0%float) true false
    world0 = None
  /\ exists w',
      replicate_files_on_change "/" empty_spec no_file no_lines frozen_clock
        zero five in_round_2 1000 "/home/u/test" no_copy None true false
        world0 = Some (Ok tt, w').
Proof.
  split.
  - apply (@watch_without_timeout "/" unit empty_spec no_file no_lines
             frozen_clock zero five nobody (Some 0%float) 1000 "/home/u/test"
             no_copy true false world0 eq_refl).
    reflexivity.
  - apply (proj2 (proj2 (@watch_without_timeout "/" unit empty_spec no_file
             no_lines frozen_clock zero five in_round_2 None 1000
             "/home/u/test" no_copy true false world0 eq_refl)) 2).
    + reflexivity.
    + intros [|[|j]] Hj; [reflexivity | reflexivity | lia].
    + lia.
Defined.

End WatchExamples.

(** ** The command line *)

Section Main.
Import tar_adapter cli.

Variable path_exists : string -> bool.
Variable isdir : string -> bool.
Variable local_exec : list string -> subprocess.outcome.
Variable remote_exec : list string -> string -> subprocess.outcome.
Variable str_exn : exn -> string.

(** Once the three checks of the arguments pass and both adapters are
    chosen, [main] goes on to the session with whatever was chosen for the
    remote side: the test of the remote adapter changes nothing. *)
Lemma main_checks_keeps_remote (a : Params) (w : world)
    (l r : option TarAdapter) :
  connection_command a <> [] ->
  posixpath.isabs (dest_parent_dir a) = true ->
  path_exists (src_dir a) = true ->
  isdir (src_dir a) = true ->
  call_local_tar_fn local_exec (local_tar_fn a) = Ok l ->
  call_remote_tar_fn remote_exec str_exn (remote_tar_fn a) (connection_command a)
    = Ok r ->
  fst (main_checks path_exists isdir local_exec remote_exec str_exn a w)
  = Ok (l, r).
Proof.
  intros Hc Habs Hex Hdir Hl Hr. unfold main_checks.
  destruct (connection_command a) as [|c cs] eqn:Ec; [congruence|].
  rewrite Habs, Hex, Hdir, Hl, Hr.
  unfold bind, lift, ret, when, emit.
  destruct (debugging a), (isinstance_GnuTarAdapter r), (clean_out_first a);
    reflexivity.
Qed.

End Main.

Section MainExamples.
Import tar_adapter cli.

(** C2 at the failing input. The operator asks for detection of the remote
    tar and the remote shell answers with the bsdtar text, so the remote
    adapter is [None], which is not a [GnuTarAdapter].  [main] raises no
    usage error: it goes on to [make_file_replicator], which spawns the
    connection command and then fails on the missing adapter. *)
Lemma main_opens_session_for_non_gnu_remote :
  isinstance_GnuTarAdapter None = false
  /\ main_checks everything_exists everything_exists
       (fun _ => subprocess.NoSuchFile) (fun _ _ => bsd_text_exit_0)
       plain_str_exn detect_run world0
     = (Ok (Some (GnuTarAdapter ""), None), world0)
  /\ main "/" everything_exists everything_exists no_file no_lines small_tree
       empty_spec pyc_rule (fun _ => subprocess.NoSuchFile)
       (fun _ _ => bsd_text_exit_0) plain_str_exn spawns (sender_exits 0 "")
       frozen_clock zero five nobody 5 detect_run world0
     = Some (Raise (AttributeError "receiver_cmd_str"),
             {| trace := [Popen ["ssh"; "host"; "bash"]];
                last_event_timestamp := 0%float |}).
Proof. repeat split. Qed.

End MainExamples.

(** * Further properties *)

(** ** Detection *)

Section DetectionMore.
Import tar_adapter.

Variable local_exec : list string -> subprocess.outcome.
Variable remote_exec : list string -> string -> subprocess.outcome.
Variable str_exn : exn -> string.
Variable connection_command : list string.

Lemma local_loop_app (l1 l2 : list TarAdapter) :
  detect_local_loop local_exec (l1 ++ l2)
  = or_else (detect_local_loop local_exec l1) (detect_local_loop local_exec l2).
Proof.
  induction l1 as [|c l1 IH]; [reflexivity|]. simpl app.
  destruct (local_probe_cases local_exec c) as [Hc|[Hc|[e Hc]]].
  - rewrite !(local_loop_passed _ Hc). exact IH.
  - rewrite !(local_loop_accepted _ Hc). reflexivity.
  - rewrite !(local_loop_probe_raises _ Hc). reflexivity.
Qed.

Lemma remote_loop_app (l1 l2 : list TarAdapter) :
  detect_remote_loop remote_exec str_exn connection_command (l1 ++ l2)
  = or_else (detect_remote_loop remote_exec str_exn connection_command l1)
            (detect_remote_loop remote_exec str_exn connection_command l2).
Proof.
  induction l1 as [|c l1 IH]; [reflexivity|]. simpl app.
  destruct (remote_probe_cases remote_exec connection_command c)
    as [Hc|[Hc|[Hc|Hc]]].
  - rewrite !(remote_loop_tested str_exn _ Hc). exact IH.
  - rewrite !(remote_loop_tested str_exn _ Hc). reflexivity.
  - unfold remote_launch_fails, remote_probe in Hc.
    destruct Hc as [Hc|Hc]; cbn [detect_remote_loop]; rewrite Hc; reflexivity.
  - rewrite !(remote_loop_undecodable str_exn _ Hc). reflexivity.
Qed.

(** X1. Detection over a list of candidates that is two lists put together
    is detection over the first and, only if that found nothing (it
    neither returned a candidate nor raised), detection over the second;
    for the local and for the remote detector. *)
Theorem detect_tar_app (l1 l2 : list TarAdapter) :
  detect_local_tar local_exec (Some (l1 ++ l2)%list)
  = or_else (detect_local_tar local_exec (Some l1))
            (detect_local_tar local_exec (Some l2))
  /\ detect_remote_tar remote_exec str_exn connection_command (Some (l1 ++ l2)%list)
     = or_else (detect_remote_tar remote_exec str_exn connection_command (Some l1))
               (detect_remote_tar remote_exec str_exn connection_command (Some l2)).
Proof. split; [apply local_loop_app | apply remote_loop_app]. Qed.

(** X2. A detector returns nothing but one of its candidates: a returned
    adapter is a member of the list given, or of the default list when none
    is given. *)
Theorem detect_tar_returns_candidate (acceptable : option (list TarAdapter))
    (t : TarAdapter) :
  (detect_local_tar local_exec acceptable = Ok (Some t) ->
   In t (or_default acceptable default_local))
  /\ (detect_remote_tar remote_exec str_exn connection_command acceptable
      = Ok (Some t) ->
      In t (or_default acceptable default_remote)).
Proof.
  split; intros H.
  - apply local_loop_some in H as (pre & post & -> & _).
    apply in_or_app; right; left; reflexivity.
  - apply remote_loop_some in H as (pre & post & -> & _).
    apply in_or_app; right; left; reflexivity.
Qed.

(** X4. Where every candidate's probe runs and exits with status zero with
    the same output locally and through the connection, the two detectors
    give the same result. *)
Theorem detectors_agree (l : list TarAdapter) :
  Forall (probes_agree local_exec remote_exec connection_command) l ->
  detect_remote_tar remote_exec str_exn connection_command (Some l)
  = detect_local_tar local_exec (Some l).
Proof.
  unfold detect_remote_tar, detect_local_tar, or_default.
  induction 1 as [|c l (cp & Hl & Hr & Hrc) _ IH]; [reflexivity|].
  destruct (match_flavor_output c (subprocess.stdout cp)) eqn:Em.
  - rewrite (@remote_loop_tested remote_exec str_exn connection_command c l true)
      by (exists cp; auto).
    rewrite (@local_loop_accepted local_exec c l) by (exists cp; auto).
    reflexivity.
  - rewrite (@remote_loop_tested remote_exec str_exn connection_command c l false)
      by (exists cp; auto).
    rewrite (@local_loop_passed local_exec c l) by (right; exists cp; auto).
    exact IH.
Qed.

End DetectionMore.

Section DetectionMoreExamples.
Import tar_adapter.

Lemma detect_tar_returns_candidate_witness :
  In (GnuTarAdapter "g") default_local /\ In (GnuTarAdapter "g") default_remote.
Proof.
  split.
  - apply (proj1 (@detect_tar_returns_candidate only_gtar shell_with_gtar
                    plain_str_exn ["bash"] None (GnuTarAdapter "g"))).
    reflexivity.
  - apply (proj2 (@detect_tar_returns_candidate only_gtar shell_with_gtar
                    plain_str_exn ["bash"] None (GnuTarAdapter "g"))).
    reflexivity.
Defined.

Lemma detectors_agree_witness :
  detect_remote_tar (fun _ _ => gnu_text_exit_0) plain_str_exn ["bash"]
    (Some [BsdTarAdapter; GnuTarAdapter ""])
  = detect_local_tar (fun _ => gnu_text_exit_0)
      (Some [BsdTarAdapter; GnuTarAdapter ""]).
Proof.
  apply (@detectors_agree (fun _ => gnu_text_exit_0) (fun _ _ => gnu_text_exit_0)
           plain_str_exn ["bash"] [BsdTarAdapter; GnuTarAdapter ""]).
  repeat constructor; eexists; repeat split.
Defined.

End DetectionMoreExamples.

(** ** More on the session's [copy_file] *)

Section CopyFileMore.
Import tar_adapter lib.

Variable getcwd : string.
Variable tar_exec : list string -> string -> list action -> subprocess.outcome.

(** [copy_file] once the adapter and the relative path are known: the
    sender is run in the announced world, and its result examined. *)
Lemma copy_file_run (s : Session) (t : TarAdapter) (src_filename rel : string)
    (w : world) :
  local_tar s = Some t ->
  posixpath.relpath getcwd (posixpath.abspath getcwd src_filename) (src_dir s)
    = Ok rel ->
  let argv := sender_cmd t rel in
  let w1 := announced getcwd s src_filename w in
  copy_file getcwd tar_exec s src_filename w =
  match subprocess.run argv true false (tar_exec argv (src_dir s) (trace w1)) with
  | Ok result =>
      if negb (String.eqb (subprocess.stderr result) "") then
        match utf8.decode (subprocess.stderr result) with
        | Ok text =>
            if str_in not_found_text text
            then (Ok tt, log StdinFlush (log (Run argv (src_dir s)) w1))
            else (Raise (RuntimeError ("ERROR: " ++ text)),
                  log (Run argv (src_dir s)) w1)
        | Raise e => (Raise e, log (Run argv (src_dir s)) w1)
        end
      else (Ok tt, log StdinFlush (log (Run argv (src_dir s)) w1))
  | Raise e => (Raise e, log (Run argv (src_dir s)) w1)
  end.
Proof.
  intros Ht Hrel argv w1. subst argv w1.
  unfold copy_file, announced in *. unfold bind at 1, lift at 1.
  rewrite Hrel. unfold bind at 1.
  destruct (debugging s); cbn [when emit ret]; rewrite Ht;
    unfold bind at 1; cbn [ret]; unfold bind at 1, run_sender;
    (destruct (subprocess.run _ _ _ _) as [result|e]; [|reflexivity]);
    (destruct (negb (String.eqb (subprocess.stderr result) ""));
     [|reflexivity]);
    unfold bind, lift, utf8.decode;
    (destruct (utf8.valid (subprocess.stderr result)); [|reflexivity]);
    unfold not_found_text;
    destruct (str_in _ (subprocess.stderr result)); reflexivity.
Qed.

(** X5. Whatever the sender does, [copy_file] with an adapter runs the
    sender exactly once, in the source directory and on the path relative
    to it, and flushes the session's input if and only if it returns
    normally: after the run nothing is done when it raises. *)
Theorem copy_file_runs_sender_once (s : Session) (t : TarAdapter)
    (src_filename rel : string) (w : world) :
  local_tar s = Some t ->
  posixpath.relpath getcwd (posixpath.abspath getcwd src_filename) (src_dir s)
    = Ok rel ->
  let run := copy_file getcwd tar_exec s src_filename w in
  trace (snd run)
  = (trace (announced getcwd s src_filename w)
     ++ [Run (sender_cmd t rel) (src_dir s)]
     ++ match fst run with
        | Ok _ => [StdinFlush]
        | Raise _ => []
        end)%list.
Proof.
  intros Ht Hrel run. subst run. rewrite (copy_file_run s src_filename w Ht Hrel).
  destruct (subprocess.run _ _ _ _) as [result|e]; [|reflexivity].
  destruct (negb _); [|cbn; now rewrite <- app_assoc].
  destruct (utf8.decode _) as [text|e]; [|reflexivity].
  destruct (str_in _ _); [cbn; now rewrite <- app_assoc | reflexivity].
Qed.

(** X6. A sender that exits with a nonzero status makes [copy_file] raise
    [CalledProcessError] with that status and the command, whatever it
    wrote to its error channel, nothing included. *)
Theorem copy_file_nonzero_exit (s : Session) (t : TarAdapter)
    (src_filename rel : string) (w : world) (cp : subprocess.CompletedProcess) :
  local_tar s = Some t ->
  posixpath.relpath getcwd (posixpath.abspath getcwd src_filename) (src_dir s)
    = Ok rel ->
  tar_exec (sender_cmd t rel) (src_dir s)
    (trace (announced getcwd s src_filename w)) = subprocess.Exited cp ->
  subprocess.returncode cp <> 0%Z ->
  fst (copy_file getcwd tar_exec s src_filename w)
  = Raise (CalledProcessError (subprocess.returncode cp) (sender_cmd t rel)).
Proof.
  intros Ht Hrel Hrun Hrc. rewrite (copy_file_run s src_filename w Ht Hrel).
  rewrite Hrun. unfold subprocess.run, subprocess.checked. apply Z.eqb_neq in Hrc. rewrite Hrc.
  reflexivity.
Qed.

(** X7. A sender that exits with status zero and writes nothing to its
    error channel makes [copy_file] return normally, having run the sender
    and flushed. *)
Theorem copy_file_succeeds (s : Session) (t : TarAdapter)
    (src_filename rel : string) (w : world) (cp : subprocess.CompletedProcess) :
  local_tar s = Some t ->
  posixpath.relpath getcwd (posixpath.abspath getcwd src_filename) (src_dir s)
    = Ok rel ->
  tar_exec (sender_cmd t rel) (src_dir s)
    (trace (announced getcwd s src_filename w)) = subprocess.Exited cp ->
  subprocess.returncode cp = 0%Z ->
  subprocess.stderr cp = "" ->
  copy_file getcwd tar_exec s src_filename w
  = (Ok tt,
     log StdinFlush
       (log (Run (sender_cmd t rel) (src_dir s))
          (announced getcwd s src_filename w))).
Proof.
  intros Ht Hrel Hrun Hrc Herr. rewrite (copy_file_run s src_filename w Ht Hrel).
  rewrite Hrun. unfold subprocess.run, subprocess.checked. rewrite Hrc. cbn [andb Z.eqb negb].
  rewrite Herr. reflexivity.
Qed.

(** X8. When the sender exits with status zero and its diagnostic is
    non-empty, well-formed UTF-8 and without "No such file or directory",
    the [RuntimeError] that [copy_file] raises carries the diagnostic in
    full after the text "ERROR: ". *)
Theorem copy_file_error_carries_diagnostic (s : Session) (t : TarAdapter)
    (src_filename rel : string) (w : world) (cp : subprocess.CompletedProcess) :
  local_tar s = Some t ->
  posixpath.relpath getcwd (posixpath.abspath getcwd src_filename) (src_dir s)
    = Ok rel ->
  tar_exec (sender_cmd t rel) (src_dir s)
    (trace (announced getcwd s src_filename w)) = subprocess.Exited cp ->
  subprocess.returncode cp = 0%Z ->
  subprocess.stderr cp <> "" ->
  utf8.valid (subprocess.stderr cp) = true ->
  ~ Occurs not_found_text (subprocess.stderr cp) ->
  fst (copy_file getcwd tar_exec s src_filename w)
  = Raise (RuntimeError ("ERROR: " ++ subprocess.stderr cp)).
Proof.
  intros Ht Hrel Hrun Hrc Hne Hv Hno.
  rewrite (copy_file_run s src_filename w Ht Hrel).
  rewrite Hrun. unfold subprocess.run, subprocess.checked. rewrite Hrc. cbn [andb Z.eqb negb].
  apply String.eqb_neq in Hne. rewrite Hne. cbn [negb].
  unfold utf8.decode. rewrite Hv.
  apply str_in_not_Occurs in Hno. rewrite Hno. reflexivity.
Qed.

(** X9. A session without a local adapter (local detection found none):
    [copy_file] raises [AttributeError] before any process is run. *)
Theorem copy_file_without_adapter (s : Session) (src_filename : string)
    (w : world) :
  local_tar s = None ->
  copy_file getcwd tar_exec s src_filename w
  = (Raise (AttributeError "sender_cmd"), announced getcwd s src_filename w).
Proof.
  intros Ht. destruct (relpath_abspath_ok getcwd src_filename (src_dir s))
    as [rel Hrel].
  unfold copy_file, announced. unfold bind at 1, lift at 1. rewrite Hrel.
  unfold bind at 1. destruct (debugging s); cbn [when emit ret]; rewrite Ht;
    reflexivity.
Qed.

End CopyFileMore.

Section CopyFileMoreExamples.
Import tar_adapter lib.

Lemma copy_file_runs_sender_once_witness :
  trace (snd (copy_file "/" (sender_exits 1 bsd_vanished) bsd_session
                "/home/u/test/a.txt" world0))
  = [Run ["tar"; "-c"; "-f"; "-"; "a.txt"] "/home/u/test"].
Proof.
  apply (@copy_file_runs_sender_once "/" (sender_exits 1 bsd_vanished)
           bsd_session BsdTarAdapter "/home/u/test/a.txt" "a.txt" world0
           eq_refl eq_refl).
Defined.

Lemma copy_file_nonzero_exit_witness :
  fst (copy_file "/" (sender_exits 2 "") gnu_session "/home/u/test/a.txt" world0)
  = Raise (CalledProcessError 2
             ["tar"; "--create"; "a.txt"; "--to-stdout"; "--ignore-failed-read"]).
Proof.
  apply (@copy_file_nonzero_exit "/" (sender_exits 2 "") gnu_session
           (GnuTarAdapter "") "/home/u/test/a.txt" "a.txt" world0 _
           eq_refl eq_refl eq_refl).
  discriminate.
Defined.

Lemma copy_file_succeeds_witness :
  copy_file "/" (sender_exits 0 "") gnu_session "/home/u/test/a.txt" world0
  = (Ok tt,
     {| trace := [Run ["tar"; "--create"; "a.txt"; "--to-stdout";
                       "--ignore-failed-read"] "/home/u/test";
                  StdinFlush];
        last_event_timestamp := 0%float |}).
Proof.
  apply (@copy_file_succeeds "/" (sender_exits 0 "") gnu_session
           (GnuTarAdapter "") "/home/u/test/a.txt" "a.txt" world0 _
           eq_refl eq_refl eq_refl eq_refl eq_refl).
Defined.

Lemma copy_file_error_carries_diagnostic_witness :
  fst (copy_file "/" (sender_exits 0 denied) gnu_session "/home/u/test/a.txt"
         world0)
  = Raise (RuntimeError ("ERROR: " ++ denied)).
Proof.
  apply (@copy_file_error_carries_diagnostic "/" (sender_exits 0 denied)
           gnu_session (GnuTarAdapter "") "/home/u/test/a.txt" "a.txt" world0 _
           eq_refl eq_refl eq_refl eq_refl).
  - discriminate.
  - reflexivity.
  - apply str_in_not_Occurs. reflexivity.
Defined.

Lemma copy_file_without_adapter_witness :
  copy_file "/" (sender_exits 0 "") no_adapter_session "/home/u/test/a.txt" world0
  = (Raise (AttributeError "sender_cmd"),
     {| trace := [Print "Sending /home/u/test/a.txt..."];
        last_event_timestamp := 0%float |}).
Proof.
  apply (@copy_file_without_adapter "/" (sender_exits 0 "") no_adapter_session
           "/home/u/test/a.txt" world0 eq_refl).
Defined.

End CopyFileMoreExamples.

(** ** The session *)

Section SessionMore.
Import tar_adapter lib.

Variable getcwd : string.
Variable popen : list string -> result unit.
Variable tar_exec : list string -> string -> list action -> subprocess.outcome.

Lemma trace_entered remote_tar src_dir dest_parent_dir cmd clean_out_first w :
  trace (entered getcwd remote_tar src_dir dest_parent_dir cmd clean_out_first w)
  = (trace w
     ++ enter_actions getcwd remote_tar src_dir dest_parent_dir cmd
          clean_out_first)%list.
Proof. unfold entered, enter_actions. cbn. now rewrite <- !app_assoc. Qed.

(** Entering the session when the connection command starts. *)
Lemma enter_ok (local remote : option TarAdapter) (src_dir dest_parent_dir : string)
    (cmd : list string) (clean_out_first debugging : bool) (w : world) :
  popen cmd = Ok tt ->
  make_file_replicator_enter getcwd popen local remote src_dir dest_parent_dir
    cmd clean_out_first debugging w
  = match remote with
    | Some rt =>
        (Ok (session_of getcwd local src_dir debugging),
         entered getcwd rt src_dir dest_parent_dir cmd clean_out_first w)
    | None => (Raise (AttributeError "receiver_cmd_str"), log (Popen cmd) w)
    end.
Proof.
  intros Hp. unfold make_file_replicator_enter, bind, lift, emit, ret, raise.
  rewrite Hp. destruct remote; reflexivity.
Qed.

(** X10. The session is torn down whatever its body does: when the
    connection command starts and there is a remote adapter, the body runs
    in the world in which the receiver script was written and flushed, and
    once the body returns or raises, the session's input is closed and the
    process awaited, and the [with] statement ends as the body ended. *)
Theorem make_file_replicator_teardown (A : Type) (local : option TarAdapter)
    (rt : TarAdapter) (src_dir dest_parent_dir : string) (cmd : list string)
    (clean_out_first debugging : bool)
    (body : (string -> M unit) -> D A) (w w2 : world) (r : result A) :
  popen cmd = Ok tt ->
  body (copy_file getcwd tar_exec (session_of getcwd local src_dir debugging))
       (entered getcwd rt src_dir dest_parent_dir cmd clean_out_first w)
    = Some (r, w2) ->
  exists w',
    make_file_replicator getcwd popen tar_exec local (Some rt) src_dir
      dest_parent_dir cmd clean_out_first debugging body w = Some (r, w')
    /\ trace w' = (trace w2 ++ [StdinClose; Wait])%list.
Proof.
  intros Hp Hb. unfold make_file_replicator, bindD, liftD.
  rewrite (enter_ok local (Some rt) src_dir dest_parent_dir clean_out_first
             debugging w Hp).
  unfold finallyD. rewrite Hb.
  eexists; split; [reflexivity|]. cbn. now rewrite <- app_assoc.
Qed.

(** X11. The session is not opened half: when the connection command
    cannot be started the exception is passed on and nothing else is done;
    when there is no remote adapter the process is started, nothing is
    written to it, the body does not run, and the input of the process is
    not closed. *)
Theorem make_file_replicator_fails_to_enter (A : Type)
    (local remote : option TarAdapter) (src_dir dest_parent_dir : string)
    (cmd : list string) (clean_out_first debugging : bool)
    (body : (string -> M unit) -> D A) (w : world) :
  (forall e, popen cmd = Raise e ->
     make_file_replicator getcwd popen tar_exec local remote src_dir
       dest_parent_dir cmd clean_out_first debugging body w
     = Some (Raise e, w))
  /\ (popen cmd = Ok tt -> remote = None ->
      make_file_replicator getcwd popen tar_exec local remote src_dir
        dest_parent_dir cmd clean_out_first debugging body w
      = Some (Raise (AttributeError "receiver_cmd_str"), log (Popen cmd) w)).
Proof.
  split.
  - intros e Hp.
    unfold make_file_replicator, bindD, liftD, make_file_replicator_enter,
      bind, lift.
    rewrite Hp. reflexivity.
  - intros Hp ->. unfold make_file_replicator, bindD, liftD.
    rewrite (enter_ok local None src_dir dest_parent_dir clean_out_first
               debugging w Hp).
    reflexivity.
Qed.

End SessionMore.

Section SessionMoreExamples.
Import tar_adapter lib.

(** A body whose one copy raises: the exception leaves the [with]
    statement after the teardown. *)
Lemma make_file_replicator_teardown_witness :
  exists w',
    make_file_replicator "/" spawns (sender_exits 0 denied)
      (Some (GnuTarAdapter "")) (Some (GnuTarAdapter "")) "/home/u/test" "/srv"
      ["bash"] false false copy_a_txt world0
    = Some (Raise (RuntimeError ("ERROR: " ++ denied)), w')
    /\ trace w'
       = ([Popen ["bash"];
           StdinWrite (receiver_script "/" (GnuTarAdapter "") "/home/u/test"
                         "/srv" false);
           StdinFlush;
           Run ["tar"; "--create"; "a.txt"; "--to-stdout"; "--ignore-failed-read"]
             "/home/u/test"]
          ++ [StdinClose; Wait])%list.
Proof.
  apply (@make_file_replicator_teardown "/" spawns (sender_exits 0 denied) unit
           (Some (GnuTarAdapter "")) (GnuTarAdapter "") "/home/u/test" "/srv"
           ["bash"] false false copy_a_txt world0
           {| trace :=
                [Popen ["bash"];
                 StdinWrite (receiver_script "/" (GnuTarAdapter "")
                               "/home/u/test" "/srv" false);
                 StdinFlush;
                 Run ["tar"; "--create"; "a.txt"; "--to-stdout";
                      "--ignore-failed-read"] "/home/u/test"];
              last_event_timestamp := 0%float |}
           (Raise (RuntimeError ("ERROR: " ++ denied)))).
  - reflexivity.
  - reflexivity.
Defined.

Lemma make_file_replicator_fails_to_enter_witness :
  make_file_replicator "/" no_such_command (sender_exits 0 "")
    (Some (GnuTarAdapter "")) (Some (GnuTarAdapter "")) "/home/u/test" "/srv"
    ["no-such-shell"] false false copy_a_txt world0
  = Some (Raise FileNotFoundError, world0)
  /\ make_file_replicator "/" spawns (sender_exits 0 "")
       (Some (GnuTarAdapter "")) None "/home/u/test" "/srv"
       ["bash"] false false copy_a_txt world0
     = Some (Raise (AttributeError "receiver_cmd_str"),
             {| trace := [Popen ["bash"]]; last_event_timestamp := 0%float |}).
Proof.
  split.
  - apply (proj1 (@make_file_replicator_fails_to_enter "/" no_such_command
                    (sender_exits 0 "") unit (Some (GnuTarAdapter ""))
                    (Some (GnuTarAdapter "")) "/home/u/test" "/srv"
                    ["no-such-shell"] false false copy_a_txt world0)).
    reflexivity.
  - apply (proj2 (@make_file_replicator_fails_to_enter "/" spawns
                    (sender_exits 0 "") unit (Some (GnuTarAdapter "")) None
                    "/home/u/test" "/srv" ["bash"] false false copy_a_txt
                    world0)); reflexivity.
Defined.

End SessionMoreExamples.

(** ** More on the event handlers *)

Section HandlersMore.
Import events lib.

Variable PathSpec : Type.
Variable match_file : PathSpec -> string -> bool.
Variable clock : list action -> float.
Variable str_key : FileSystemEvent -> string.
Variable outcome : string -> list action -> result unit.

Lemma stamp_noted debugging event w :
  last_event_timestamp (noted clock str_key debugging event w) = clock (trace w).
Proof. unfold noted. destruct debugging; reflexivity. Qed.

(** X12. Every event that is not dropped resets the inactivity timer: after
    its dispatch [last_event_timestamp] is the reading of the clock taken
    at its arrival, also for a deleted event or a modified directory, for
    which nothing is copied, and also when [copy_file] raises. *)
Theorem dispatch_stamps_time (spec : option PathSpec) (debugging : bool)
    (event : FileSystemEvent) (w : world) :
  dropped match_file spec event = false ->
  last_event_timestamp
    (snd (dispatch match_file clock str_key
            (watch_handler spec outcome debugging) event w))
  = clock (trace w).
Proof.
  intros Hd. rewrite (dispatch_not_dropped _ _ _ _ _ _ _ _ Hd).
  rewrite on_any_event_cases.
  destruct (class event), (is_directory event); cbn [snd callable log];
    cbn [last_event_timestamp]; apply stamp_noted.
Qed.

(** X13. A dropped event leaves no mark: the dispatch returns normally and
    the world is the one before, but for a line printed when debugging; in
    particular the clock is not read and the inactivity timer is not
    reset. *)
Theorem dispatch_dropped_leaves_world (sp : PathSpec) (debugging : bool)
    (event : FileSystemEvent) (w : world) :
  ignored match_file sp event = true ->
  exists text,
    dispatch match_file clock str_key
      (watch_handler (Some sp) outcome debugging) event w
    = (Ok tt, if debugging then log (Print text) w else w).
Proof.
  unfold ignored, watch_handler, dispatch. intros H.
  destruct (negb (String.eqb (src_path event) "")
            && match_file sp (src_path event)).
  - eexists. destruct debugging; reflexivity.
  - cbn [orb] in H. destruct (dest_path event) as [d|]; [|discriminate].
    rewrite H. eexists. destruct debugging; reflexivity.
Qed.

(** X14. A handler raises only what [copy_file] raised: when the dispatch
    of an event raises, it made one call of [copy_file], and that call
    raised the exception. *)
Theorem dispatch_raises_from_copy_file (spec : option PathSpec)
    (debugging : bool) (event : FileSystemEvent) (w : world) (e : exn) :
  let run :=
    dispatch match_file clock str_key (watch_handler spec outcome debugging)
      event w in
  fst run = Raise e ->
  exists path,
    copy_calls (trace (snd run)) = (copy_calls (trace w) ++ [path])%list
    /\ outcome path (trace (snd run)) = Raise e.
Proof.
  intros run. subst run.
  destruct (dropped match_file spec event) eqn:Hd.
  - destruct spec as [sp|]; [|discriminate]. cbn [dropped] in Hd.
    destruct (dispatch_dropped match_file clock str_key outcome sp debugging
                event w Hd) as [E _].
    rewrite E. discriminate.
  - rewrite (dispatch_not_dropped _ _ _ _ _ _ _ _ Hd), on_any_event_cases.
    destruct (class event) as [d| | |], (is_directory event);
      try discriminate;
      intros H;
      match goal with
      | |- context [callable outcome ?p _] => exists p
      end;
      (split; [rewrite copy_calls_callable, copy_calls_noted; reflexivity
              | exact H]).
Qed.

End HandlersMore.

Section HandlersMoreExamples.
Import events lib.

Lemma dispatch_stamps_time_witness :
  last_event_timestamp
    (snd (dispatch pyc_rule clock_at_7 no_key
            (watch_handler (Some tt) always_ok false) a_txt_deleted world0))
  = 7%float.
Proof.
  apply (@dispatch_stamps_time unit pyc_rule clock_at_7 no_key always_ok
           (Some tt) false a_txt_deleted world0).
  reflexivity.
Defined.

Lemma dispatch_dropped_leaves_world_witness :
  exists text,
    dispatch pyc_rule clock_at_7 no_key
      (watch_handler (Some tt) always_ok false) pyc_created world0
    = (Ok tt, if false then log (Print text) world0 else world0).
Proof.
  apply (@dispatch_dropped_leaves_world unit pyc_rule clock_at_7 no_key
           always_ok tt false pyc_created world0).
  reflexivity.
Defined.

Lemma dispatch_raises_from_copy_file_witness :
  exists path,
    copy_calls (trace (snd (dispatch pyc_rule clock_at_7 no_key
                              (watch_handler (Some tt)
                                 (fails_on "/home/u/test/b.txt") false)
                              renamed world0)))
    = ([] ++ [path])%list
    /\ fails_on "/home/u/test/b.txt" path
         (trace (snd (dispatch pyc_rule clock_at_7 no_key
                        (watch_handler (Some tt)
                           (fails_on "/home/u/test/b.txt") false)
                        renamed world0)))
       = Raise (RuntimeError "ERROR: tar: Cannot open: Permission denied").
Proof.
  apply (@dispatch_raises_from_copy_file unit pyc_rule clock_at_7 no_key
           (fails_on "/home/u/test/b.txt") (Some tt) false renamed world0).
  reflexivity.
Defined.

End HandlersMoreExamples.

(** ** More on bulk replication *)

Section BulkMore.
Import lib.

Variable PathSpec : Type.
Variable from_lines : list string -> PathSpec.
Variable match_file : PathSpec -> string -> bool.
Variable isfile : string -> bool.
Variable readlines : string -> list string.
Variable iter_tree : string -> list string.
Variable outcome : string -> list action -> result unit.





Lemma filter_all (A : Type) (f : A -> bool) (l : list A) :
  (forall x, f x = true) -> filter f l = l.
Proof.
  intros H. induction l as [|x l IH]; [reflexivity|].
  cbn. now rewrite H, IH.
Qed.

(** X16. Without ignore rules everything is copied: when the rules are
    switched off, or the source directory has no [.gitignore] file, and
    the matcher made of no rules matches nothing, a run that returns
    normally has called [copy_file] on every discovered file, in the order
    of the traversal. *)
Theorem replicate_all_files_without_rules (src_dir : string)
    (use_gitignore debugging : bool) (w : world) :
  (forall path, match_file (from_lines []) path = false) ->
  use_gitignore = false
  \/ isfile (posixpath.join src_dir ".gitignore") = false ->
  let run :=
    replicate_all_files from_lines match_file isfile readlines iter_tree
      src_dir (callable outcome) use_gitignore debugging w in
  fst run = Ok tt ->
  copy_calls (trace (snd run))
  = (copy_calls (trace w) ++ map (posixpath.join src_dir) (iter_tree src_dir))%list.
Proof.
  intros Hempty Hoff run Hok. subst run.
  assert (Hs : get_pathspec from_lines isfile readlines src_dir use_gitignore
               = from_lines []).
  { unfold get_pathspec. destruct Hoff as [-> | ->]; [reflexivity|].
    now rewrite andb_false_r. }
  unfold replicate_all_files in *. rewrite Hs in *.
  destruct (bulk_loop_calls match_file outcome (from_lines []) src_dir
              (iter_tree src_dir) w) as (done & rest & E & Hc & Hrest).
  rewrite Hc. rewrite (Hrest Hok), app_nil_r in E. rewrite <- E.
  unfold to_copy. rewrite filter_all; [reflexivity|].
  intros x. now rewrite Hempty.
Qed.

End BulkMore.

Section BulkMoreExamples.
Import lib.


Lemma replicate_all_files_without_rules_witness :
  copy_calls (trace (snd (replicate_all_files empty_spec matches_nothing
                            no_file no_lines small_tree "/home/u/test"
                            (callable always_ok) false false world0)))
  = ([] ++ ["/home/u/test/a.txt"; "/home/u/test/b/c.txt";
            "/home/u/test/b/c.pyc"])%list.
Proof.
  apply (@replicate_all_files_without_rules unit empty_spec matches_nothing
           no_file no_lines small_tree always_ok "/home/u/test" false false
           world0).
  - reflexivity.
  - left; reflexivity.
  - reflexivity.
Defined.

End BulkMoreExamples.

(** ** More on the watch phase *)

Section WatchMore.
Import lib.

Variable getcwd : string.
Variable PathSpec : Type.
Variable from_lines : list string -> PathSpec.
Variable isfile : string -> bool.
Variable readlines : string -> list string.
Variable clock : list action -> float.
Variable observed : nat -> float.
Variable now : nat -> float.
Variable interrupted : nat -> bool.

Local Abbreviation loop := (poll observed now interrupted).

(** However the loop is left, it is by one of the two exceptions the
    [except] clause names, and all it did was read the clock and sleep. *)
Lemma poll_exit (timeout : option float) :
  forall fuel i w e w1,
    loop timeout fuel i w = Some (e, w1) ->
    (e = KeyboardInterrupt \/ exists elapsed, e = NoChangeTimeoutError elapsed)
    /\ exists mid,
        trace w1 = (trace w ++ mid)%list /\ Forall polling_action mid.
Proof.
  assert (Htt : polling_action TimeTime) by (left; reflexivity).
  assert (Hsl : polling_action Sleep) by (right; reflexivity).
  induction fuel as [|fuel IH]; intros i w e w1 H; [discriminate|].
  destruct (truthy timeout) eqn:Ht.
  - destruct timeout as [t|]; [|discriminate].
    rewrite poll_checked in H by assumption.
    destruct (timed_out observed now t i).
    + injection H as <- <-. split; [right; eauto|].
      exists [TimeTime]. split; [reflexivity|]. auto.
    + destruct (interrupted i).
      * injection H as <- <-. split; [left; reflexivity|].
        exists [TimeTime; Sleep]. split; [cbn; now rewrite <- app_assoc|]. auto.
      * destruct (IH _ _ _ _ H) as (He & mid & Hm & Hf). split; [exact He|].
        exists ([TimeTime; Sleep] ++ mid)%list. split.
        -- rewrite Hm. cbn. now rewrite <- !app_assoc.
        -- cbn. auto.
  - rewrite poll_unchecked in H by assumption.
    destruct (interrupted i).
    + injection H as <- <-. split; [left; reflexivity|].
      exists [Sleep]. split; [reflexivity|]. auto.
    + destruct (IH _ _ _ _ H) as (He & mid & Hm & Hf). split; [exact He|].
      exists ([Sleep] ++ mid)%list. split.
      * rewrite Hm. cbn. now rewrite <- !app_assoc.
      * cbn. auto.
Qed.

(** X17. The polling loop of [replicate_files_on_change] is left by
    nothing but the two exceptions its [except] clause catches, the
    interrupt that arrives during a sleep and the [NoChangeTimeoutError] of
    [raise_if_timeout]; and while it runs the main thread does nothing but
    read the clock and sleep: it calls [copy_file] at no time. *)
Theorem poll_left_by_caught_exception (timeout : option float) (fuel i : nat)
    (w w1 : world) (e : exn) :
  poll observed now interrupted timeout fuel i w = Some (e, w1) ->
  (e = KeyboardInterrupt \/ exists elapsed, e = NoChangeTimeoutError elapsed)
  /\ exists mid, trace w1 = (trace w ++ mid)%list /\ Forall polling_action mid.
Proof. apply poll_exit. Qed.

Lemma poll_interrupted_checked (t : float) (n : nat) :
  truthy (Some t) = true ->
  forall fuel i w,
    (forall j, j <= n -> timed_out observed now t (i + j) = false) ->
    (forall j, j < n -> interrupted (i + j) = false) ->
    interrupted (i + n) = true ->
    n < fuel ->
    loop (Some t) fuel i w = Some (KeyboardInterrupt, rounds true (S n) w).
Proof.
  intros Ht. induction n as [|n IH]; intros fuel i w Hto Hq Hn Hf;
    (destruct fuel as [|fuel]; [lia|]); rewrite poll_checked by assumption;
    pose proof (Hto 0 ltac:(lia)) as H0; rewrite Nat.add_0_r in H0; rewrite H0.
  - rewrite Nat.add_0_r in Hn. rewrite Hn. reflexivity.
  - pose proof (Hq 0 ltac:(lia)) as H1. rewrite Nat.add_0_r in H1. rewrite H1.
    apply IH; [| | |lia].
    + intros j Hj. replace (S i + j) with (i + S j) by lia. apply Hto; lia.
    + intros j Hj. replace (S i + j) with (i + S j) by lia. apply Hq; lia.
    + now replace (S i + n) with (i + S n) by lia.
Qed.

(** X18. With a timeout that is checked, an interrupt that arrives before
    the timeout has elapsed ends the watch in the same orderly way: the
    function returns normally after the round of the interrupt, with the
    observer stopped and joined. *)
Theorem watch_returns_on_interrupt (t : float) (n fuel : nat) (src_dir : string)
    (copy_file : string -> M unit) (use_gitignore debugging : bool) (w : world) :
  truthy (Some t) = true ->
  (forall j, j <= n -> timed_out observed now t j = false) ->
  (forall j, j < n -> interrupted j = false) ->
  interrupted n = true ->
  n < fuel ->
  exists w',
    replicate_files_on_change getcwd from_lines isfile readlines clock
      observed now interrupted fuel src_dir copy_file (Some t) use_gitignore
      debugging w = Some (Ok tt, w')
    /\ trace w'
       = (trace w
          ++ setup_actions (posixpath.abspath getcwd src_dir) debugging
          ++ List.concat (repeat (round_actions true) (S n))
          ++ shutdown_actions debugging)%list.
Proof.
  intros Ht Hto Hq Hn Hf. rewrite watch_unfold.
  rewrite (@poll_interrupted_checked t n Ht fuel 0 _ Hto Hq Hn Hf).
  eexists; split; [reflexivity|].
  unfold shutdown_actions.
  destruct debugging; cbn [log trace];
    rewrite trace_rounds, trace_started; rewrite <- ?app_assoc; reflexivity.
Qed.

End WatchMore.

Section WatchMoreExamples.
Import lib.

Lemma poll_left_by_caught_exception_witness :
  (NoChangeTimeoutError 4%float = KeyboardInterrupt
   \/ exists elapsed, NoChangeTimeoutError 4%float = NoChangeTimeoutError elapsed)
  /\ exists mid,
      [TimeTime; Sleep; TimeTime; Sleep; TimeTime] = ([] ++ mid)%list
      /\ Forall polling_action mid.
Proof.
  apply (@poll_left_by_caught_exception one late nobody (Some 2%float) 3 0
           world0
           {| trace := [TimeTime; Sleep; TimeTime; Sleep; TimeTime];
              last_event_timestamp := 0%float |}
           (NoChangeTimeoutError 4%float)).
  reflexivity.
Defined.

Lemma watch_returns_on_interrupt_witness :
  exists w',
    replicate_files_on_change "/" empty_spec no_file no_lines frozen_clock
      zero late in_round_2 5 "/home/u/test" no_copy (Some 10%float) true false
      world0 = Some (Ok tt, w')
    /\ trace w'
       = ([] ++ setup_actions (posixpath.abspath "/" "/home/u/test") false
             ++ List.concat (repeat (round_actions true) 3)
             ++ shutdown_actions false)%list.
Proof.
  apply (@watch_returns_on_interrupt "/" unit empty_spec no_file no_lines
           frozen_clock zero late in_round_2 10%float 2 5 "/home/u/test"
           no_copy true false world0).
  - reflexivity.
  - intros [|[|[|j]]] Hj; [reflexivity | reflexivity | reflexivity | lia].
  - intros [|[|j]] Hj; [reflexivity | reflexivity | lia].
  - reflexivity.
  - lia.
Defined.

End WatchMoreExamples.

(** ** More on the command line *)

Section MainMore.
Import tar_adapter lib cli.

Variable getcwd : string.
Variable path_exists : string -> bool.
Variable isdir : string -> bool.
Variable isfile : string -> bool.
Variable readlines : string -> list string.
Variable iter_tree : string -> list string.
Variable PathSpec : Type.
Variable from_lines : list string -> PathSpec.
Variable match_file : PathSpec -> string -> bool.
Variable local_exec : list string -> subprocess.outcome.
Variable remote_exec : list string -> string -> subprocess.outcome.
Variable str_exn : exn -> string.
Variable popen : list string -> result unit.
Variable tar_exec : list string -> string -> list action -> subprocess.outcome.
Variable clock : list action -> float.
Variable observed : nat -> float.
Variable now : nat -> float.
Variable interrupted : nat -> bool.

Local Abbreviation checks := (main_checks path_exists isdir local_exec remote_exec str_exn).
Local Abbreviation run_main :=
  (main getcwd path_exists isdir isfile readlines iter_tree from_lines
     match_file local_exec remote_exec str_exn popen tar_exec clock observed
     now interrupted).

Lemma local_loop_raises_no_usage (l : list TarAdapter) (e : exn) :
  detect_local_loop local_exec l = Raise e ->
  e = OSError \/ e = UnicodeDecodeError.
Proof.
  induction l as [|c l IH]; [discriminate|].
  destruct (local_probe_cases local_exec c) as [Hc|[Hc|[e' Hc]]].
  - rewrite (local_loop_passed l Hc). exact IH.
  - rewrite (local_loop_accepted l Hc). discriminate.
  - rewrite (local_loop_probe_raises l Hc). intros H; injection H as <-.
    destruct Hc as [[_ ->]|[_ ->]]; auto.
Qed.

Lemma remote_loop_raises_no_usage (cmd : list string) (l : list TarAdapter)
    (e : exn) :
  detect_remote_loop remote_exec str_exn cmd l = Raise e ->
  e = OSError \/ e = UnicodeDecodeError \/ exists msg, e = RuntimeError msg.
Proof.
  induction l as [|c l IH]; [discriminate|].
  destruct (remote_probe_cases remote_exec cmd c) as [Hc|[Hc|[Hc|Hc]]].
  - rewrite (remote_loop_tested str_exn l Hc). exact IH.
  - rewrite (remote_loop_tested str_exn l Hc). discriminate.
  - destruct (remote_loop_fails str_exn l Hc) as [E|E]; rewrite E;
      intros H; injection H as <-; eauto.
  - rewrite (remote_loop_undecodable str_exn l Hc).
    intros H; injection H as <-; auto.
Qed.

Lemma tar_fns_raise_no_usage (a : Params) (msg : string) :
  call_local_tar_fn local_exec (local_tar_fn a) <> Raise (UsageError msg)
  /\ call_remote_tar_fn remote_exec str_exn (remote_tar_fn a)
       (connection_command a) <> Raise (UsageError msg).
Proof.
  split; intros H.
  - destruct (local_tar_fn a); try discriminate.
    apply local_loop_raises_no_usage in H as [H|H]; discriminate.
  - destruct (remote_tar_fn a); try discriminate.
    apply remote_loop_raises_no_usage in H as [H|[H|[m H]]]; discriminate.
Qed.

(** X19. [main] turns the operator away with a usage error in exactly three
    cases, tested in this order: no connection command, a destination
    parent directory that is not absolute, a source directory that does not
    exist or is not a directory.  Nothing has been done by then, and [main]
    ends with that error.  A remote adapter that is not GNU gives no usage
    error. *)
Theorem main_usage_errors (a : Params) (w : world) (msg : string) :
  let rejected :=
    (connection_command a = [] /\ msg = usage_no_command)
    \/ (connection_command a <> []
        /\ posixpath.isabs (dest_parent_dir a) = false
        /\ msg = usage_relative_dest)
    \/ (connection_command a <> []
        /\ posixpath.isabs (dest_parent_dir a) = true
        /\ (path_exists (src_dir a) = false \/ isdir (src_dir a) = false)
        /\ msg = usage_no_source) in
  (fst (checks a w) = Raise (UsageError msg) <-> rejected)
  /\ (rejected -> forall fuel, run_main fuel a w = Some (Raise (UsageError msg), w)).
Proof.
  intros rejected. subst rejected.
  assert (Hfwd :
    (connection_command a = [] /\ msg = usage_no_command)
    \/ (connection_command a <> []
        /\ posixpath.isabs (dest_parent_dir a) = false
        /\ msg = usage_relative_dest)
    \/ (connection_command a <> []
        /\ posixpath.isabs (dest_parent_dir a) = true
        /\ (path_exists (src_dir a) = false \/ isdir (src_dir a) = false)
        /\ msg = usage_no_source)
    -> checks a w = (Raise (UsageError msg), w)).
  { unfold main_checks.
    intros [[Hc ->]|[(Hc & Habs & ->)|(Hc & Habs & Hsrc & ->)]].
    - rewrite Hc. reflexivity.
    - destruct (connection_command a) eqn:Ec; [now elim Hc|].
      unfold bind at 1. cbn [ret]. unfold bind at 1. rewrite Habs. reflexivity.
    - destruct (connection_command a) eqn:Ec; [now elim Hc|].
      unfold bind at 1. cbn [ret]. unfold bind at 1. rewrite Habs. cbn [negb ret].
      unfold bind at 1.
      replace (negb (path_exists (src_dir a)) || negb (isdir (src_dir a)))
        with true
        by (destruct Hsrc as [-> | ->]; cbn; [|rewrite orb_true_r]; reflexivity).
      reflexivity. }
  split; [split|].
  - unfold main_checks. intros H.
    destruct (connection_command a) as [|c cs] eqn:Ec.
    + left. cbn in H. split; [reflexivity|]. now injection H.
    + right. unfold bind at 1 in H. cbn [ret] in H. unfold bind at 1 in H.
      destruct (posixpath.isabs (dest_parent_dir a)) eqn:Habs; cbn [negb] in H.
      * right. cbn [ret] in H. unfold bind at 1 in H.
        destruct (path_exists (src_dir a)) eqn:Hex;
          destruct (isdir (src_dir a)) eqn:Hdir; cbn [negb orb] in H;
          try (cbn in H; repeat split; auto; try discriminate; now injection H).
        exfalso. cbn [ret] in H.
        destruct (tar_fns_raise_no_usage a msg) as [Hl Hr].
        unfold bind at 1, lift at 1 in H.
        destruct (call_local_tar_fn local_exec (local_tar_fn a)) as [l|e] eqn:El;
          [|cbn in H; apply Hl; congruence].
        unfold bind at 1, lift at 1 in H.
        destruct (call_remote_tar_fn remote_exec str_exn (remote_tar_fn a) (c :: cs))
          as [r|e] eqn:Er; [|cbn in H; apply Hr; rewrite ?Ec, Er; congruence].
        unfold bind, when, emit, ret in H.
        destruct (debugging a), (isinstance_GnuTarAdapter r), (clean_out_first a);
          discriminate H.
      * left. cbn in H. repeat split; [discriminate|now injection H].
  - intros H. now rewrite (Hfwd H).
  - intros H fuel. unfold main, bindD, liftD. now rewrite (Hfwd H).
Qed.

(** X20. A run with both phases switched off opens the session and closes
    it again: once the checks have passed with a remote adapter and the
    connection command has started, [main] writes the receiver script,
    flushes, closes the input, awaits the process and returns normally.  No
    file is sent. *)
Theorem main_idle_session (a : Params) (fuel : nat) (w w1 : world)
    (l : option TarAdapter) (rt : TarAdapter) :
  checks a w = (Ok (l, Some rt), w1) ->
  popen (connection_command a) = Ok tt ->
  with_initial_replication a = false ->
  replicate_on_change a = false ->
  exists w',
    run_main fuel a w = Some (Ok tt, w')
    /\ trace w'
       = (trace w1
          ++ enter_actions getcwd rt (src_dir a) (dest_parent_dir a)
               (connection_command a) (clean_out_first a)
          ++ [StdinClose; Wait])%list.
Proof.
  intros Hc Hp Hb Hw. unfold main, bindD at 1, liftD at 1. rewrite Hc.
  unfold make_file_replicator, bindD at 1, liftD at 1.
  rewrite (@enter_ok getcwd popen l (Some rt) (src_dir a) (dest_parent_dir a)
             (connection_command a) (clean_out_first a) (debugging a) w1 Hp).
  rewrite Hb, Hw. unfold finallyD, bindD, liftD, ret.
  eexists; split; [reflexivity|].
  cbn [make_file_replicator_exit]. unfold make_file_replicator_exit, bind, emit.
  cbn [trace log snd]. rewrite trace_entered, <- !app_assoc. reflexivity.
Qed.

(** X21. [main] gives the watch no timeout, so with the watch phase on and
    no interrupt ever arriving it never ends normally: whenever it ends, it
    ends with an exception; and a run that only watches, once the checks
    have passed with a remote adapter and the connection command has
    started, does not end at all, whatever the fuel. *)
Theorem main_watch_needs_interrupt (a : Params) (fuel : nat) (w : world) :
  replicate_on_change a = true ->
  (forall i, interrupted i = false) ->
  (forall r w', run_main fuel a w = Some (r, w') -> exists e, r = Raise e)
  /\ (forall l rt w1,
        checks a w = (Ok (l, Some rt), w1) ->
        popen (connection_command a) = Ok tt ->
        with_initial_replication a = false ->
        run_main fuel a w = None).
Proof.
  intros Hw Hq. split.
  - intros r w'. unfold main, bindD at 1, liftD at 1.
    destruct (checks a w) as [[[l rt]|e] w1];
      [|intros H; injection H as <- _; eauto].
    unfold make_file_replicator, bindD at 1, liftD at 1.
    destruct (make_file_replicator_enter _ _ _ _ _ _ _ _ _ _) as [[s|e] w2];
      [|intros H; injection H as <- _; eauto].
    unfold finallyD, bindD, liftD. rewrite Hw.
    destruct (if with_initial_replication a then _ else _) as [[u|e] w3].
    + rewrite watch_unfold, poll_falsy_runs by (reflexivity || assumption).
      discriminate.
    + unfold make_file_replicator_exit, bind, emit.
      intros H; injection H as <- _; eauto.
  - intros l rt w1 Hc Hp Hb. unfold main, bindD at 1, liftD at 1. rewrite Hc.
    unfold make_file_replicator, bindD at 1, liftD at 1.
    rewrite (@enter_ok getcwd popen l (Some rt) (src_dir a) (dest_parent_dir a)
               (connection_command a) (clean_out_first a) (debugging a) w1 Hp).
    rewrite Hb, Hw. unfold finallyD, bindD, liftD, ret.
    rewrite watch_unfold, poll_falsy_runs by (reflexivity || assumption).
    reflexivity.
Qed.

(** X22. Whatever flag chooses it, the remote adapter [main] works with is
    a GNU adapter, named [tar] or [gtar], or it is [None], and [None] only
    when detection was asked for; the local adapter is [None] only when
    local detection was asked for. *)
Theorem main_adapters (a : Params) (l r : option TarAdapter) :
  (call_remote_tar_fn remote_exec str_exn (remote_tar_fn a)
     (connection_command a) = Ok r ->
   (r = Some (GnuTarAdapter "") \/ r = Some (GnuTarAdapter "g") \/ r = None)
   /\ (r = None -> remote_tar_fn a = remote_tar_detect))
  /\ (call_local_tar_fn local_exec (local_tar_fn a) = Ok l ->
      l = None -> local_tar_fn a = local_tar_detect).
Proof.
  split.
  - destruct (remote_tar_fn a); cbn [call_remote_tar_fn]; intros H;
      try (injection H as <-; split; [auto | discriminate]).
    split; [|reflexivity].
    destruct r as [t|]; [|auto].
    apply remote_loop_some in H as (pre & post & E & _).
    assert (Hin : In t default_remote)
      by (cbn [or_default] in E; rewrite E; apply in_or_app; right; left;
          reflexivity).
    destruct Hin as [<-|[<-|[]]]; auto.
  - destruct (local_tar_fn a); cbn [call_local_tar_fn]; intros H Hl;
      try reflexivity; subst l; discriminate.
Qed.

End MainMore.

Section MainMoreExamples.
Import tar_adapter lib cli.

Lemma main_usage_errors_witness :
  main "/" everything_exists everything_exists no_file no_lines small_tree
    empty_spec pyc_rule only_gtar shell_with_gtar plain_str_exn spawns
    (sender_exits 0 "") frozen_clock zero five nobody 5 no_command_run world0
  = Some (Raise (UsageError usage_no_command), world0).
Proof.
  apply (proj2 (@main_usage_errors "/" everything_exists everything_exists
                  no_file no_lines small_tree unit empty_spec pyc_rule only_gtar
                  shell_with_gtar plain_str_exn spawns (sender_exits 0 "")
                  frozen_clock zero five nobody no_command_run world0
                  usage_no_command)).
  left. split; reflexivity.
Defined.

Lemma main_idle_session_witness :
  exists w',
    main "/" everything_exists everything_exists no_file no_lines small_tree
      empty_spec pyc_rule only_gtar shell_with_gtar plain_str_exn spawns
      (sender_exits 0 "") frozen_clock zero five nobody 5 idle_run world0
    = Some (Ok tt, w')
    /\ trace w'
       = ([] ++ enter_actions "/" (GnuTarAdapter "") "/home/u/test" "/srv"
                  ["ssh"; "host"; "bash"] false
             ++ [StdinClose; Wait])%list.
Proof.
  apply (@main_idle_session "/" everything_exists everything_exists no_file
           no_lines small_tree unit empty_spec pyc_rule only_gtar
           shell_with_gtar plain_str_exn spawns (sender_exits 0 "")
           frozen_clock zero five nobody idle_run 5 world0 world0
           (Some (GnuTarAdapter "")) (GnuTarAdapter ""));
    reflexivity.
Defined.

(** A run that only watches, with a connection command that starts and
    no interrupt: after a thousand rounds it has not ended. *)
Lemma main_watch_needs_interrupt_witness :
  main "/" everything_exists everything_exists no_file no_lines small_tree
    empty_spec pyc_rule only_gtar shell_with_gtar plain_str_exn spawns
    (sender_exits 0 "") frozen_clock zero five nobody 1000 watch_run world0
  = None.
Proof.
  apply (proj2 (@main_watch_needs_interrupt "/" everything_exists
                  everything_exists no_file no_lines small_tree unit empty_spec
                  pyc_rule only_gtar shell_with_gtar plain_str_exn spawns
                  (sender_exits 0 "") frozen_clock zero five nobody watch_run
                  1000 world0 eq_refl (fun _ => eq_refl))
           (Some (GnuTarAdapter "")) (GnuTarAdapter "") world0);
    reflexivity.
Defined.

Lemma main_adapters_witness :
  (Some (GnuTarAdapter "g") = Some (GnuTarAdapter "")
   \/ Some (GnuTarAdapter "g") = Some (GnuTarAdapter "g")
   \/ Some (GnuTarAdapter "g") = None)
  /\ remote_tar_fn detect_run = remote_tar_detect.
Proof.
  split.
  - apply (proj1 (@main_adapters only_gtar shell_with_gtar plain_str_exn
                    detect_run None (Some (GnuTarAdapter "g")))).
    reflexivity.
  - apply (proj1 (@main_adapters only_gtar (fun _ _ => bsd_text_exit_0)
                    plain_str_exn detect_run None None));
      reflexivity.
Defined.

End MainMoreExamples.
